(** * google_maps.py: the request gateway and the seven map tools

    A shallow embedding of [src/google_maps.py].  The Python objects the
    program handles (the parsed JSON payload, the parameter mapping) are
    modelled as values of an inductive type with the dynamic behaviour
    Python gives them: subscripting, [dict.get], truthiness, iteration,
    slicing and string formatting either return a value or raise.

    A [string] stands for a Python [str]; one character of the [string]
    is one character of the [str]. *)

From Stdlib Require Import ZArith Lia Bool List String Ascii.
From Stdlib Require Import Floats DecimalString.
Import ListNotations.

Set Warnings "-inexact-float,-register-all".

Local Open Scope list_scope.
Local Open Scope string_scope.

(** ** Strings *)

Module Str.

Fixpoint join (sep : string) (l : list string) : string :=
  match l with
  | [] => ""
  | [x] => x
  | x :: rest => x ++ sep ++ join sep rest
  end.

(** the strings of [l] one after the other *)
Fixpoint cat (l : list string) : string :=
  match l with
  | [] => ""
  | x :: rest => x ++ cat rest
  end.

(** [s[:n]] *)
Fixpoint take (n : nat) (s : string) : string :=
  match n, s with
  | S n', String c s' => String c (take n' s')
  | _, _ => ""
  end.

(** [s[i]] for [0 <= i] *)
Fixpoint at_index (i : nat) (s : string) : option ascii :=
  match s with
  | "" => None
  | String c s' => match i with O => Some c | S i' => at_index i' s' end
  end.

Fixpoint chars (s : string) : list string :=
  match s with
  | "" => []
  | String c s' => String c "" :: chars s'
  end.

Fixpoint starts_with (p s : string) : bool :=
  match p with
  | "" => true
  | String a p' =>
      match s with
      | "" => false
      | String b s' => Ascii.eqb a b && starts_with p' s'
      end
  end.

(** [sub in s] *)
Fixpoint contains (sub s : string) : bool :=
  starts_with sub s ||
  match s with
  | "" => false
  | String _ s' => contains sub s'
  end.

(** [s.replace(old, new)] for a non-empty [old]: the occurrences are
    taken from the left and do not overlap.  [skip] counts the
    characters of a matched occurrence that are still to be dropped. *)
Fixpoint replace_from (old new : string) (skip : nat) (s : string) : string :=
  match s with
  | "" => ""
  | String c s' =>
      match skip with
      | S k => replace_from old new k s'
      | O =>
          if starts_with old s
          then new ++ replace_from old new (length old - 1) s'
          else String c (replace_from old new 0 s')
      end
  end.

Definition replace (old new s : string) : string :=
  replace_from old new 0 s.

Definition is_lower (c : ascii) : bool :=
  let n := nat_of_ascii c in (97 <=? n)%nat && (n <=? 122)%nat.
Definition is_upper (c : ascii) : bool :=
  let n := nat_of_ascii c in (65 <=? n)%nat && (n <=? 90)%nat.
Definition to_upper (c : ascii) : ascii :=
  if is_lower c then ascii_of_nat (nat_of_ascii c - 32) else c.
Definition to_lower (c : ascii) : ascii :=
  if is_upper c then ascii_of_nat (nat_of_ascii c + 32) else c.

(** [s.title()] on ASCII letters: the first letter of every run of
    letters in upper case, the others in lower case. *)
Fixpoint title_from (in_word : bool) (s : string) : string :=
  match s with
  | "" => ""
  | String c s' =>
      if is_lower c || is_upper c
      then String (if in_word then to_lower c else to_upper c) (title_from true s')
      else String c (title_from false s')
  end.

Definition title (s : string) : string := title_from false s.

Fixpoint repeat (c : ascii) (n : nat) : string :=
  match n with
  | O => ""
  | S n' => String c (repeat c n')
  end.

Fixpoint rev_onto (s acc : string) : string :=
  match s with
  | "" => acc
  | String c s' => rev_onto s' (String c acc)
  end.

Definition rev (s : string) : string := rev_onto s "".

Fixpoint drop_zeros (s : string) : string :=
  match s with
  | String "0" s' => drop_zeros s'
  | _ => s
  end.

(** the digits of [s] without the zeros at its end *)
Definition strip_trailing_zeros (s : string) : string := rev (drop_zeros (rev s)).

(** [str(z)] *)
Definition of_Z (z : Z) : string := NilZero.string_of_int (Z.to_int z).

End Str.

(** ** Floats

    A Python [float] is a binary64 number: Rocq's primitive [float].
    Its renderings ([repr], used by [str] and by an f-string field
    without format, and the format [.2f]) are computed exactly on the
    value [m * 2^e] of the number. *)

Module PyFloat.

Local Open Scope Z_scope.

Definition sign (s : bool) : string := if s then "-" else "".

Definition pad2 (z : Z) : string :=
  if z <? 10 then "0" ++ Str.of_Z z else Str.of_Z z.

(** [n / d] rounded to the nearest integer, a tie to the even one *)
Definition round_half_even (n d : Z) : Z :=
  let q := n / d in
  match 2 * (n mod d) ?= d with
  | Lt => q
  | Gt => q + 1
  | Eq => if Z.even q then q else q + 1
  end.

(** [m * 2^e] with two digits after the point *)
Definition fixed2 (m e : Z) : string :=
  let q := round_half_even (100 * m * 2 ^ Z.max 0 e) (2 ^ Z.max 0 (- e)) in
  Str.of_Z (q / 100) ++ "." ++ pad2 (q mod 100).

(** [format(f, ".2f")] *)
Definition format_2f (f : float) : string :=
  match Prim2SF f with
  | S754_zero s => sign s ++ "0.00"
  | S754_infinity s => sign s ++ "inf"
  | S754_nan => "nan"
  | S754_finite s m e => sign s ++ fixed2 (Zpos m) e
  end.

(** [c * 10^k] compared with [x * 2^e], all positive *)
Definition cmp_dec_bin (c k x e : Z) : comparison :=
  (c * 10 ^ Z.max 0 k * 2 ^ Z.max 0 (- e)) ?= (x * 2 ^ Z.max 0 e * 10 ^ Z.max 0 (- k)).

(** the [p] with [10^p <= x * 2^e < 10^(p+1)], searched upwards *)
Fixpoint decimal_exponent (fuel : nat) (p x e : Z) : Z :=
  match fuel with
  | O => p
  | S fuel' =>
      match cmp_dec_bin 1 (p + 1) x e with
      | Gt => p
      | _ => decimal_exponent fuel' (p + 1) x e
      end
  end.

(** The shortest decimal [c * 10^k] that reads back as the float
    [m * 2^e]: it lies between the midpoints to the two neighbouring
    floats (the midpoints themselves when [m] is even), and among the
    decimals of that many digits it is the nearest one.  Quantities
    are in units of [2^(e-2)]. *)
Section Shortest.
Variables (m e : Z).

Let x := 4 * m.
Let x_low := if (m =? 2 ^ 52) && (-1074 <? e) then x - 1 else x - 2.
Let x_high := x + 2.
Let u := e - 2.

Definition reads_back (c k : Z) : bool :=
  match cmp_dec_bin c k x_low u, cmp_dec_bin c k x_high u with
  | Gt, Lt => true
  | Eq, Lt | Gt, Eq => Z.even m
  | _, _ => false
  end.

Definition floor_scaled (k : Z) : Z :=
  (x * 2 ^ Z.max 0 u * 10 ^ Z.max 0 (- k)) / (2 ^ Z.max 0 (- u) * 10 ^ Z.max 0 k).

Definition candidate (k : Z) : option Z :=
  let lo := floor_scaled k in
  let hi := lo + 1 in
  match reads_back lo k, reads_back hi k with
  | true, false => Some lo
  | false, true => Some hi
  | false, false => None
  | true, true =>
      (* twice the value against the sum of the two candidates *)
      match cmp_dec_bin (lo + hi) k (2 * x) u with
      | Gt => Some lo
      | Lt => Some hi
      | Eq => Some (if Z.even lo then lo else hi)
      end
  end.

Fixpoint shortest (fuel : nat) (n p : Z) : Z * Z :=
  let k := p - n + 1 in
  match fuel with
  | O => (floor_scaled k, k)
  | S fuel' =>
      match candidate k with
      | Some c => (c, k)
      | None => shortest fuel' (n + 1) p
      end
  end.

Definition shortest_digits : string * Z :=
  (* a lower bound of the decimal exponent, from the bit length *)
  let p0 := (Z.log2 x + u) * 30103 / 100000 - 1 in
  let p := decimal_exponent 640 p0 x u in
  let '(c, k) := shortest 17 1 p in
  let ds := Str.of_Z c in
  (Str.strip_trailing_zeros ds, k + Z.of_nat (String.length ds)).
End Shortest.

Fixpoint drop (n : nat) (s : string) : string :=
  match n, s with
  | S n', String _ s' => drop n' s'
  | _, _ => s
  end.

(** the digits [ds] with the decimal point after [decpt] of them, laid
    out as [repr] does: an exponent when [decpt] is below -3 or above 16 *)
Definition layout (ds : string) (decpt : Z) : string :=
  let n := Z.of_nat (String.length ds) in
  if (decpt <? -3) || (16 <? decpt) then
    let mant := match ds with
                | String d "" => String d ""
                | String d rest => String d ("." ++ rest)
                | "" => ""
                end in
    let ex := decpt - 1 in
    mant ++ "e" ++ (if ex <? 0 then "-" else "+") ++ pad2 (Z.abs ex)
  else if decpt <=? 0 then
    "0." ++ Str.repeat "0" (Z.to_nat (- decpt)) ++ ds
  else if decpt <? n then
    Str.take (Z.to_nat decpt) ds ++ "." ++ drop (Z.to_nat decpt) ds
  else
    ds ++ Str.repeat "0" (Z.to_nat (decpt - n)) ++ ".0".

(** [repr(f)] *)
Definition repr (f : float) : string :=
  match Prim2SF f with
  | S754_zero s => sign s ++ "0.0"
  | S754_infinity s => sign s ++ "inf"
  | S754_nan => "nan"
  | S754_finite s m e =>
      let '(ds, decpt) := shortest_digits (Zpos m) e in
      sign s ++ layout ds decpt
  end.

(** [float(z)]: the nearest float, a tie to the even mantissa;
    [None] stands for [OverflowError]. *)
Definition of_int (z : Z) : option float :=
  match binary_normalize prec emax z 0 false with
  | S754_infinity _ => None
  | sf => Some (SF2Prim sf)
  end.

Definition is_finite (f : float) : bool :=
  match Prim2SF f with
  | S754_zero _ | S754_finite _ _ _ => true
  | _ => false
  end.

End PyFloat.

(** ** Python values *)

(** What [response.json()] can return, and what the program builds
    from it.  A [dict] keeps its entries in insertion order. *)
Inductive pyval : Type :=
| PNone
| PBool (b : bool)
| PInt (z : Z)
| PFloat (f : float)
| PStr (s : string)
| PList (l : list pyval)
| PDict (d : list (string * pyval)).

Definition pydict : Type := list (string * pyval).

Inductive exn : Type :=
| KeyError | IndexError | TypeError | AttributeError | ValueError | OverflowError.

(** The outcome of evaluating a Python expression or statement list. *)
Inductive result (A : Type) : Type :=
| Ok (a : A)
| Raise (e : exn).

Arguments Ok {A} a.
Arguments Raise {A} e.

Definition bind {A B : Type} (r : result A) (k : A -> result B) : result B :=
  match r with
  | Ok a => k a
  | Raise e => Raise e
  end.

Declare Scope py_scope.
Delimit Scope py_scope with py.
Notation "x <- e ;; k" := (bind e (fun x => k))
  (at level 61, e at next level, right associativity) : py_scope.
Local Open Scope py_scope.

Definition returns {A : Type} (r : result A) : bool :=
  match r with Ok _ => true | Raise _ => false end.

Definition nl : string := String "010"%char "".
Definition dquote : string := String "034"%char "".

Module Py.

Definition type_name (v : pyval) : string :=
  match v with
  | PNone => "NoneType"
  | PBool _ => "bool"
  | PInt _ => "int"
  | PFloat _ => "float"
  | PStr _ => "str"
  | PList _ => "list"
  | PDict _ => "dict"
  end.

(** [bool(v)] *)
Definition truthy (v : pyval) : bool :=
  match v with
  | PNone => false
  | PBool b => b
  | PInt z => negb (z =? 0)%Z
  | PFloat f => negb (PrimFloat.eqb f 0%float)
  | PStr s => negb (s =? "")
  | PList l => match l with [] => false | _ => true end
  | PDict d => match d with [] => false | _ => true end
  end.

(** [not v] *)
Definition not_ (v : pyval) : bool := negb (truthy v).

(** [v == s] for a string literal [s] *)
Definition eq_str (v : pyval) (s : string) : bool :=
  match v with
  | PStr t => t =? s
  | _ => false
  end.

Fixpoint lookup (d : pydict) (k : string) : option pyval :=
  match d with
  | [] => None
  | (k', v) :: rest => if k' =? k then Some v else lookup rest k
  end.

(** [d.get(k, default)] on a dict *)
Definition get_or (d : pydict) (k : string) (default : pyval) : pyval :=
  match lookup d k with
  | Some v => v
  | None => default
  end.

(** [d.get(k)] on a dict *)
Definition get (d : pydict) (k : string) : pyval := get_or d k PNone.

(** [d[k] = v] on a dict: the entry is replaced where it stands, a new
    key goes to the end. *)
Fixpoint set (d : pydict) (k : string) (v : pyval) : pydict :=
  match d with
  | [] => [(k, v)]
  | (k', v') :: rest =>
      if k' =? k then (k', v) :: rest else (k', v') :: set rest k v
  end.

(** [v.get(k, default)] on any value: only a dict has the method. *)
Definition get_attr_or (v : pyval) (k : string) (default : pyval) : result pyval :=
  match v with
  | PDict d => Ok (get_or d k default)
  | _ => Raise AttributeError
  end.

Definition get_attr (v : pyval) (k : string) : result pyval :=
  get_attr_or v k PNone.

(** [v[k]] for a string [k] *)
Definition item (v : pyval) (k : string) : result pyval :=
  match v with
  | PDict d =>
      match lookup d k with
      | Some x => Ok x
      | None => Raise KeyError
      end
  | _ => Raise TypeError
  end.

(** [v[i]] for an integer [0 <= i]; the keys of a dict are strings, so
    an integer is never among them. *)
Definition index (v : pyval) (i : nat) : result pyval :=
  match v with
  | PList l =>
      match nth_error l i with
      | Some x => Ok x
      | None => Raise IndexError
      end
  | PStr s =>
      match Str.at_index i s with
      | Some c => Ok (PStr (String c ""))
      | None => Raise IndexError
      end
  | PDict _ => Raise KeyError
  | _ => Raise TypeError
  end.

(** [v[:n]]; a dict refuses the slice (with TypeError, or with KeyError
    from Python 3.12 on: nothing below depends on which). *)
Definition slice_to (v : pyval) (n : nat) : result pyval :=
  match v with
  | PList l => Ok (PList (firstn n l))
  | PStr s => Ok (PStr (Str.take n s))
  | _ => Raise TypeError
  end.

(** the items [for x in v] goes through *)
Definition iterate (v : pyval) : result (list pyval) :=
  match v with
  | PList l => Ok l
  | PStr s => Ok (map PStr (Str.chars s))
  | PDict d => Ok (map (fun kv => PStr (fst kv)) d)
  | _ => Raise TypeError
  end.

Fixpoint all_str (l : list pyval) : result (list string) :=
  match l with
  | [] => Ok []
  | PStr s :: rest => ss <- all_str rest ;; Ok (s :: ss)
  | _ :: _ => Raise TypeError
  end.

(** [sep.join(v)] *)
Definition join (sep : string) (v : pyval) : result string :=
  items <- iterate v ;;
  ss <- all_str items ;;
  Ok (Str.join sep ss).

(** [v.replace(old, new)]: a method of [str] only *)
Definition replace (v : pyval) (old new : string) : result pyval :=
  match v with
  | PStr s => Ok (PStr (Str.replace old new s))
  | _ => Raise AttributeError
  end.

Definition hex_digit (n : nat) : ascii :=
  if (n <? 10)%nat then ascii_of_nat (48 + n) else ascii_of_nat (87 + n).

(** one character inside [repr] of a string quoted by [q] *)
Definition repr_char (q c : ascii) : string :=
  let n := nat_of_ascii c in
  if Ascii.eqb c q || Ascii.eqb c "\"%char then String "\" (String c "")
  else if (n =? 9)%nat then "\t"
  else if (n =? 10)%nat then "\n"
  else if (n =? 13)%nat then "\r"
  else if (n <? 32)%nat || (n =? 127)%nat
          || ((127 <? n)%nat && ((n <? 161)%nat || (n =? 173)%nat))
  then String "\" (String "x" (String (hex_digit (n / 16)) (String (hex_digit (n mod 16)) "")))
  else String c "".

(** [repr(s)]: single quotes, unless the text has one and no double quote *)
Definition repr_str (s : string) : string :=
  let q := if Str.contains "'" s && negb (Str.contains dquote s)
           then "034"%char else "'"%char in
  String q (concat "" (map (repr_char q) (list_ascii_of_string s))) ++ String q "".

Fixpoint repr (v : pyval) : string :=
  match v with
  | PNone => "None"
  | PBool b => if b then "True" else "False"
  | PInt z => Str.of_Z z
  | PFloat f => PyFloat.repr f
  | PStr s => repr_str s
  | PList l => "[" ++ Str.join ", " (map repr l) ++ "]"
  | PDict d =>
      "{" ++ Str.join ", " (map (fun '(k, x) => (repr_str k ++ ": " ++ repr x)%string) d) ++ "}"
  end.

(** [str(v)], which is also what an f-string field [{v}] renders *)
Definition str (v : pyval) : string :=
  match v with
  | PStr s => s
  | _ => repr v
  end.

(** [float(v)] as the arithmetic and the numeric formats apply it *)
Definition as_float (v : pyval) : result float :=
  match v with
  | PFloat f => Ok f
  | PInt z =>
      match PyFloat.of_int z with
      | Some f => Ok f
      | None => Raise OverflowError
      end
  | PBool b => Ok (if b then 1%float else 0%float)
  | _ => Raise TypeError
  end.

(** [format(v, ".2f")]: a [str] refuses the code [f], the other
    non-numbers have no format at all. *)
Definition format_2f (v : pyval) : result string :=
  match v with
  | PStr _ => Raise ValueError
  | _ => f <- as_float v ;; Ok (PyFloat.format_2f f)
  end.

(** [v * c] for a float [c] *)
Definition mul_float (v : pyval) (c : float) : result pyval :=
  f <- as_float v ;; Ok (PFloat (f * c)%float).

End Py.

Import Py.

(** ** Loops *)

(** [[f(x) for x in l]], and a loop that appends [f(x)] to a list *)
Fixpoint for_each {A B : Type} (f : A -> result B) (l : list A) : result (list B) :=
  match l with
  | [] => Ok []
  | x :: rest => y <- f x ;; ys <- for_each f rest ;; Ok (y :: ys)
  end.

(** [for x in l: s = body(s, x)] *)
Fixpoint for_loop {A S : Type} (body : S -> A -> result S) (l : list A) (s : S) : result S :=
  match l with
  | [] => Ok s
  | x :: rest => s' <- body s x ;; for_loop body rest s'
  end.

(** [enumerate(l, start)] *)
Fixpoint enumerate {A : Type} (start : nat) (l : list A) : list (nat * A) :=
  match l with
  | [] => []
  | x :: rest => (start, x) :: enumerate (S start) rest
  end.

Definition str_of_nat (n : nat) : string := Str.of_Z (Z.of_nat n).

(** ** The process and its surroundings *)

(** One [client.get(url, params=params, timeout=30.0)]. *)
Record request : Type := {
  req_url : string;
  req_params : pydict;
  req_timeout : float
}.

(** What the three calls inside the [try] of the gateway come to for a
    request: [client.get] raises (the network or the transport failed),
    [response.raise_for_status()] raises (the status is not a success),
    [response.json()] raises (the body is not JSON), or the body is
    parsed.  [e] is the text of the exception, [str(e)], as the HTTP
    client words it.

    Outside this model: the making and the closing of the client
    ([async with httpx.AsyncClient()], which is not inside the [try]),
    an exception that is not an [Exception] (a cancellation), and what
    the HTTP client itself logs about a request through [logging]. *)
Inductive http_outcome : Type :=
| NetworkFailure (e : string)
| BadStatus (e : string)
| BadBody (e : string)
| JsonBody (data : pyval).

Record env : Type := {
  GOOGLE_MAPS_API_KEY : string;
  http_get : request -> http_outcome
}.

(** The mutable part: the parameter mappings the tools allocate, the
    texts printed (one for each call of [print], by the code of this
    file only), the requests issued. *)
Record world : Type := {
  heap : nat -> pydict;
  next_ref : nat;
  stdout : list string;
  sent : list request
}.

Definition M (A : Type) : Type := env -> world -> result A * world.

Definition ret {A : Type} (a : A) : M A := fun _ w => (Ok a, w).

Definition mbind {A B : Type} (m : M A) (k : A -> M B) : M B :=
  fun e w =>
    match m e w with
    | (Ok a, w') => k a e w'
    | (Raise x, w') => (Raise x, w')
    end.

Notation "x <-- m ;; k" := (mbind m (fun x => k))
  (at level 61, m at next level, right associativity) : py_scope.

(** a computation without effects *)
Definition evaluate {A : Type} (r : result A) : M A := fun _ w => (r, w).

(** a new dict object; the result is the reference to it *)
Definition new_dict (d : pydict) : M nat :=
  fun _ w =>
    (Ok (next_ref w),
     {| heap := fun r => if (r =? next_ref w)%nat then d else heap w r;
        next_ref := S (next_ref w);
        stdout := stdout w;
        sent := sent w |}).

(** [params[k] = v] on the dict object [params] *)
Definition setitem (params : nat) (k : string) (v : pyval) : M unit :=
  fun _ w =>
    (Ok tt,
     {| heap := fun r => if (r =? params)%nat then set (heap w params) k v else heap w r;
        next_ref := next_ref w;
        stdout := stdout w;
        sent := sent w |}).

Definition print (line : string) : M unit :=
  fun _ w =>
    (Ok tt,
     {| heap := heap w; next_ref := next_ref w;
        stdout := stdout w ++ [line];
        sent := sent w |}).

(** [client.get(url, params=params, timeout=...)] followed by
    [raise_for_status()] and [json()], for the outcomes of
    [http_outcome]: the request is recorded in [sent], nothing is
    written to [stdout]. *)
Definition client_get (url : string) (params : nat) (timeout : float) : M http_outcome :=
  fun e w =>
    let req := {| req_url := url; req_params := heap w params; req_timeout := timeout |} in
    (Ok (http_get e req),
     {| heap := heap w; next_ref := next_ref w;
        stdout := stdout w;
        sent := sent w ++ [req] |}).

Definition the_key : M string := fun e w => (Ok (GOOGLE_MAPS_API_KEY e), w).

(** ** The request gateway *)

Definition GOOGLE_MAPS_BASE_URL : string := "https://maps.googleapis.com/maps/api".

Definition make_google_request (endpoint : string) (params : nat) : M (option pydict) :=
  key <-- the_key ;;
  _ <-- setitem params "key" (PStr key) ;;
  let url := GOOGLE_MAPS_BASE_URL ++ "/" ++ endpoint in
  response <-- client_get url params 30 ;;
  match response with
  | JsonBody (PDict data) =>
      if negb (eq_str (get data "status") "OK") then
        _ <-- print ("Google Maps API error: "
                     ++ str (get_or data "error_message" (get data "status"))) ;;
        ret None
      else ret (Some data)
  | JsonBody data =>
      (* [data.get] raises AttributeError inside the [try] *)
      _ <-- print ("Request failed: '" ++ type_name data
                   ++ "' object has no attribute 'get'") ;;
      ret None
  | NetworkFailure e | BadStatus e | BadBody e =>
      _ <-- print ("Request failed: " ++ e) ;;
      ret None
  end.

(** ** The tools *)

(** The guard every tool has after the gateway call:
    [if not data or not data.get(field): return message]. *)
Definition unless_absent (data : option pydict) (field message : string)
    (body : pydict -> result string) : result string :=
  match data with
  | None => Ok message
  | Some data =>
      if not_ (PDict data) || not_ (get data field) then Ok message
      else body data
  end.

Definition geocode_address (address : string) : M string :=
  params <-- new_dict [("address", PStr address)] ;;
  data <-- make_google_request "geocode/json" params ;;
  evaluate (unless_absent data "results" "Unable to geocode the provided address."
    (fun data =>
       results <- item (PDict data) "results" ;;
       result <- index results 0 ;;
       geometry <- item result "geometry" ;;
       location <- item geometry "location" ;;
       formatted_address <- item result "formatted_address" ;;
       lat <- item location "lat" ;;
       lng <- item location "lng" ;;
       place_id <- item result "place_id" ;;
       Ok (nl ++ "Address: " ++ str formatted_address ++ nl
           ++ "Coordinates: " ++ str lat ++ ", " ++ str lng ++ nl
           ++ "Place ID: " ++ str place_id ++ nl))).

Definition reverse_geocode (latitude longitude : float) : M string :=
  params <-- new_dict
    [("latlng", PStr (PyFloat.repr latitude ++ "," ++ PyFloat.repr longitude))] ;;
  data <-- make_google_request "geocode/json" params ;;
  evaluate (unless_absent data "results" "Unable to reverse geocode the provided coordinates."
    (fun data =>
       results <- item (PDict data) "results" ;;
       result <- index results 0 ;;
       formatted_address <- item result "formatted_address" ;;
       place_id <- item result "place_id" ;;
       Ok (nl ++ "Formatted Address: " ++ str formatted_address ++ nl
           ++ "Place ID: " ++ str place_id ++ nl
           ++ "Coordinates: " ++ PyFloat.repr latitude ++ ", " ++ PyFloat.repr longitude ++ nl))).

Definition search_places (query : string) (location : option string) (radius : option Z)
    : M string :=
  params <-- new_dict [("query", PStr query)] ;;
  _ <-- match location with
        | Some l => if negb (l =? "") then setitem params "location" (PStr l) else ret tt
        | None => ret tt
        end ;;
  _ <-- match radius with
        | Some r => if negb (r =? 0)%Z then setitem params "radius" (PStr (Str.of_Z r)) else ret tt
        | None => ret tt
        end ;;
  data <-- make_google_request "place/textsearch/json" params ;;
  evaluate (unless_absent data "results" "No places found for the search query."
    (fun data =>
       results <- item (PDict data) "results" ;;
       first5 <- slice_to results 5 ;;
       items <- iterate first5 ;;
       places <- for_each (fun place =>
           name <- item place "name" ;;
           formatted_address <- get_attr_or place "formatted_address" (PStr "Address not available") ;;
           rating <- get_attr_or place "rating" (PStr "No rating") ;;
           types <- get_attr_or place "types" (PList []) ;;
           types <- join ", " types ;;
           place_id <- item place "place_id" ;;
           Ok (nl ++ "Name: " ++ str name ++ nl
               ++ "Address: " ++ str formatted_address ++ nl
               ++ "Rating: " ++ str rating ++ " stars" ++ nl
               ++ "Types: " ++ types ++ nl
               ++ "Place ID: " ++ str place_id ++ nl)) items ;;
       Ok (Str.join (nl ++ "---" ++ nl) places))).

Definition get_place_details (place_id : string) : M string :=
  params <-- new_dict
    [("place_id", PStr place_id);
     ("fields", PStr "name,formatted_address,formatted_phone_number,website,rating,reviews,opening_hours,geometry")] ;;
  data <-- make_google_request "place/details/json" params ;;
  evaluate (unless_absent data "result" "Unable to fetch place details."
    (fun data =>
       place <- item (PDict data) "result" ;;
       name <- get_attr_or place "name" (PStr "Unknown") ;;
       formatted_address <- get_attr_or place "formatted_address" (PStr "Address not available") ;;
       phone <- get_attr_or place "formatted_phone_number" (PStr "Phone not available") ;;
       website <- get_attr_or place "website" (PStr "Website not available") ;;
       rating <- get_attr_or place "rating" (PStr "No rating") ;;
       let details :=
         nl ++ "Name: " ++ str name ++ nl
         ++ "Address: " ++ str formatted_address ++ nl
         ++ "Phone: " ++ str phone ++ nl
         ++ "Website: " ++ str website ++ nl
         ++ "Rating: " ++ str rating ++ " stars" ++ nl in
       (* opening hours, if available *)
       opening_hours <- get_attr place "opening_hours" ;;
       details <-
         (if truthy opening_hours then
            hours <- item place "opening_hours" ;;
            weekday_text <- get_attr hours "weekday_text" ;;
            details <-
              (if truthy weekday_text then
                 weekday_text <- item hours "weekday_text" ;;
                 lines <- join nl weekday_text ;;
                 Ok (details ++ (nl ++ "Opening Hours:" ++ nl) ++ lines)
               else Ok details) ;;
            open_now <- get_attr hours "open_now" ;;
            Ok (details ++ nl ++ "Currently Open: "
                ++ (if truthy open_now then "Yes" else "No"))
          else Ok details) ;;
       (* recent reviews, if available *)
       reviews <- get_attr place "reviews" ;;
       (if truthy reviews then
          let details := details ++ nl ++ nl ++ "Recent Reviews:" in
          reviews <- item place "reviews" ;;
          first3 <- slice_to reviews 3 ;;
          items <- iterate first3 ;;
          for_loop (fun details review =>
              author_name <- item review "author_name" ;;
              rating <- item review "rating" ;;
              text <- item review "text" ;;
              text <- slice_to text 200 ;;
              Ok (details ++ nl ++ "- " ++ str author_name
                  ++ " (" ++ str rating ++ " stars): " ++ str text ++ "..." ++ nl))
            items details
        else Ok details))).

Definition travel_modes : list string := ["driving"; "walking"; "bicycling"; "transit"].

(** [mode in l] *)
Definition mode_in (mode : string) (l : list string) : bool :=
  existsb (String.eqb mode) l.

Definition get_directions (origin destination mode : string) : M string :=
  if negb (mode_in mode travel_modes) then
    ret "Invalid travel mode. Use: driving, walking, bicycling, or transit"
  else
  params <-- new_dict
    [("origin", PStr origin); ("destination", PStr destination); ("mode", PStr mode)] ;;
  data <-- make_google_request "directions/json" params ;;
  evaluate (unless_absent data "routes" "Unable to find directions for the specified route."
    (fun data =>
       routes <- item (PDict data) "routes" ;;
       route <- index routes 0 ;;
       legs <- item route "legs" ;;
       leg <- index legs 0 ;;
       summary <- get_attr_or route "summary" (PStr "Direct route") ;;
       distance <- item leg "distance" ;;
       distance <- item distance "text" ;;
       duration <- item leg "duration" ;;
       duration <- item duration "text" ;;
       let directions :=
         nl ++ "Route Summary: " ++ str summary ++ nl
         ++ "Distance: " ++ str distance ++ nl
         ++ "Duration: " ++ str duration ++ nl
         ++ "Travel Mode: " ++ Str.title mode ++ nl
         ++ nl
         ++ "Turn-by-Turn Directions:" ++ nl in
       steps <- item leg "steps" ;;
       first10 <- slice_to steps 10 ;;
       items <- iterate first10 ;;
       for_loop (fun directions '(i, step) =>
           (* remove HTML tags from the instructions *)
           html <- item step "html_instructions" ;;
           html <- replace html "<b>" "" ;;
           html <- replace html "</b>" "" ;;
           html <- replace html "<div>" " " ;;
           instructions <- replace html "</div>" "" ;;
           distance <- item step "distance" ;;
           distance <- item distance "text" ;;
           duration <- item step "duration" ;;
           duration <- item duration "text" ;;
           Ok (directions ++ str_of_nat i ++ ". " ++ str instructions
               ++ " (" ++ str distance ++ ", " ++ str duration ++ ")" ++ nl))
         (enumerate 1 items) directions)).

Definition calculate_distance_matrix (origins destinations : list string) (mode : string)
    : M string :=
  if negb (mode_in mode travel_modes) then
    ret "Invalid travel mode. Use: driving, walking, bicycling, or transit"
  else
  params <-- new_dict
    [("origins", PStr (Str.join "|" origins));
     ("destinations", PStr (Str.join "|" destinations));
     ("mode", PStr mode)] ;;
  data <-- make_google_request "distancematrix/json" params ;;
  evaluate (unless_absent data "rows" "Unable to calculate distance matrix."
    (fun data =>
       let results := "Distance Matrix (" ++ Str.title mode ++ " mode):" ++ nl ++ nl in
       origin_addresses <- item (PDict data) "origin_addresses" ;;
       origin_addresses <- iterate origin_addresses ;;
       for_loop (fun results '(i, origin) =>
           let results := results ++ "From: " ++ str origin ++ nl in
           destination_addresses <- item (PDict data) "destination_addresses" ;;
           destination_addresses <- iterate destination_addresses ;;
           results <-
             for_loop (fun results '(j, destination) =>
                 rows <- item (PDict data) "rows" ;;
                 row <- index rows i ;;
                 elements <- item row "elements" ;;
                 element <- index elements j ;;
                 status <- item element "status" ;;
                 if eq_str status "OK" then
                   distance <- item element "distance" ;;
                   distance <- item distance "text" ;;
                   duration <- item element "duration" ;;
                   duration <- item duration "text" ;;
                   Ok (results ++ "  To " ++ str destination ++ ": " ++ str distance
                       ++ " (" ++ str duration ++ ")" ++ nl)
                 else
                   Ok (results ++ "  To " ++ str destination ++ ": Route not available" ++ nl))
               (enumerate 0 destination_addresses) results ;;
           Ok (results ++ nl))
         (enumerate 0 origin_addresses) results)).

(** [loc[k]] on a [Dict[str, float]] *)
Fixpoint coordinate (loc : list (string * float)) (k : string) : result float :=
  match loc with
  | [] => Raise KeyError
  | (k', f) :: rest => if k' =? k then Ok f else coordinate rest k
  end.

Definition feet_per_meter : float := 3.28084%float.

Definition get_elevation (locations : list (list (string * float))) : M string :=
  (* the locations in string format *)
  location_strings <-- evaluate (for_each (fun loc =>
      lat <- coordinate loc "lat" ;;
      lng <- coordinate loc "lng" ;;
      Ok (PyFloat.repr lat ++ "," ++ PyFloat.repr lng)) locations) ;;
  params <-- new_dict [("locations", PStr (Str.join "|" location_strings))] ;;
  data <-- make_google_request "elevation/json" params ;;
  evaluate (unless_absent data "results" "Unable to fetch elevation data."
    (fun data =>
       let results := "Elevation Data:" ++ nl ++ nl in
       records <- item (PDict data) "results" ;;
       records <- iterate records ;;
       for_loop (fun results '(i, result) =>
           location <- item result "location" ;;
           lat <- item location "lat" ;;
           lng <- item location "lng" ;;
           let results := results ++ "Location " ++ str_of_nat (i + 1) ++ ": "
                          ++ str lat ++ ", " ++ str lng ++ nl in
           elevation <- item result "elevation" ;;
           meters <- format_2f elevation ;;
           elevation <- item result "elevation" ;;
           in_feet <- mul_float elevation feet_per_meter ;;
           in_feet <- format_2f in_feet ;;
           let results := results ++ "Elevation: " ++ meters ++ " meters ("
                          ++ in_feet ++ " feet)" ++ nl in
           resolution <- item result "resolution" ;;
           resolution <- format_2f resolution ;;
           Ok (results ++ "Resolution: " ++ resolution ++ " meters" ++ nl ++ nl))
         (enumerate 0 records) results)).

(** ** Invoking a tool

    The host calls one of the seven registered tools by name, with the
    arguments of its schema. *)
Inductive call : Type :=
| GeocodeAddress (address : string)
| ReverseGeocode (latitude longitude : float)
| SearchPlaces (query : string) (location : option string) (radius : option Z)
| GetPlaceDetails (place_id : string)
| GetDirections (origin destination mode : string)
| CalculateDistanceMatrix (origins destinations : list string) (mode : string)
| GetElevation (locations : list (list (string * float))).

Definition invoke (c : call) : M string :=
  match c with
  | GeocodeAddress address => geocode_address address
  | ReverseGeocode latitude longitude => reverse_geocode latitude longitude
  | SearchPlaces query location radius => search_places query location radius
  | GetPlaceDetails place_id => get_place_details place_id
  | GetDirections origin destination mode => get_directions origin destination mode
  | CalculateDistanceMatrix origins destinations mode =>
      calculate_distance_matrix origins destinations mode
  | GetElevation locations => get_elevation locations
  end.

(** ** Vocabulary of the statements *)

(** The message a tool returns when the gateway gave it nothing to render. *)
Definition fixed_message (c : call) : string :=
  match c with
  | GeocodeAddress _ => "Unable to geocode the provided address."
  | ReverseGeocode _ _ => "Unable to reverse geocode the provided coordinates."
  | SearchPlaces _ _ _ => "No places found for the search query."
  | GetPlaceDetails _ => "Unable to fetch place details."
  | GetDirections _ _ _ => "Unable to find directions for the specified route."
  | CalculateDistanceMatrix _ _ _ => "Unable to calculate distance matrix."
  | GetElevation _ => "Unable to fetch elevation data."
  end.

(** The field of the payload a tool expects its results under. *)
Definition expected_field (c : call) : string :=
  match c with
  | GetPlaceDetails _ => "result"
  | GetDirections _ _ _ => "routes"
  | CalculateDistanceMatrix _ _ _ => "rows"
  | _ => "results"
  end.

(** The request the gateway issues for the parameters [d]. *)
Definition gateway_request (key endpoint : string) (d : pydict) : request :=
  {| req_url := GOOGLE_MAPS_BASE_URL ++ "/" ++ endpoint;
     req_params := set d "key" (PStr key);
     req_timeout := 30 |}.

(** The payload has the status marker of success. *)
Definition status_ok (data : pyval) : bool :=
  match data with
  | PDict d => eq_str (get d "status") "OK"
  | _ => false
  end.

(** The upstream outcomes the gateway turns into the absent result: the
    failures of the network, of the HTTP status and of the body, and a
    payload whose status is not the success marker. *)
Definition upstream_failure (o : http_outcome) : bool :=
  match o with
  | NetworkFailure _ | BadStatus _ | BadBody _ => true
  | JsonBody data => negb (status_ok data)
  end.

(** The payload is a success, but has nothing under [field]. *)
Definition empty_result (field : string) (o : http_outcome) : bool :=
  match o with
  | JsonBody (PDict d) => eq_str (get d "status") "OK" && not_ (get d field)
  | _ => false
  end.

(** What the gateway hands to the tool, and what it prints. *)
Definition gateway_payload (o : http_outcome) : option pydict :=
  match o with
  | JsonBody (PDict d) => if eq_str (get d "status") "OK" then Some d else None
  | _ => None
  end.

Definition gateway_log (o : http_outcome) : list string :=
  match o with
  | JsonBody (PDict d) =>
      if eq_str (get d "status") "OK" then []
      else ["Google Maps API error: " ++ str (get_or d "error_message" (get d "status"))]
  | JsonBody data =>
      ["Request failed: '" ++ type_name data ++ "' object has no attribute 'get'"]
  | NetworkFailure e | BadStatus e | BadBody e => ["Request failed: " ++ e]
  end.

(** The world that starts a process: nothing allocated, printed or sent. *)
Definition initial_world : world :=
  {| heap := fun _ => []; next_ref := 0; stdout := []; sent := [] |}.

(** The parameters [search_places] hands to the gateway. *)
Definition search_params (query : string) (location : option string) (radius : option Z)
    : pydict :=
  let d := [("query", PStr query)] in
  let d := match location with
           | Some l => if negb (l =? "") then set d "location" (PStr l) else d
           | None => d
           end in
  match radius with
  | Some r => if negb (r =? 0)%Z then set d "radius" (PStr (Str.of_Z r)) else d
  | None => d
  end.

(** The report of the geocoding scenario. *)
Definition scenario_address : string := "1600 Amphitheatre Parkway, Mountain View, CA".
Definition scenario_formatted_address : string :=
  "1600 Amphitheatre Parkway, Mountain View, CA, USA".
Definition scenario_place_id : string := "ChIJ2eUgeAK6j4ARbn5u_wAGqWA".
Definition scenario_report : string :=
  nl ++ "Address: 1600 Amphitheatre Parkway, Mountain View, CA, USA" ++ nl
  ++ "Coordinates: 37.4224764, -122.0842499" ++ nl
  ++ "Place ID: ChIJ2eUgeAK6j4ARbn5u_wAGqWA" ++ nl.

(** An upstream that answers every request with the same outcome. *)
Definition answering (key : string) (o : http_outcome) : env :=
  {| GOOGLE_MAPS_API_KEY := key; http_get := fun _ => o |}.

Definition invalid_mode_message : string :=
  "Invalid travel mode. Use: driving, walking, bicycling, or transit".

Definition scenario_location : pydict :=
  [("lat", PFloat 37.4224764); ("lng", PFloat (-122.0842499))].
Definition scenario_geometry : pydict := [("location", PDict scenario_location)].
Definition scenario_result : pydict :=
  [("formatted_address", PStr scenario_formatted_address);
   ("geometry", PDict scenario_geometry);
   ("place_id", PStr scenario_place_id)].
Definition scenario_payload : pydict :=
  [("results", PList [PDict scenario_result]); ("status", PStr "OK")].

(** [v[field]["text"]] *)
Definition text_of (v : pyval) (field : string) : result pyval :=
  d <- item v field ;; item d "text".

(** What the four replacements of get_directions make of the text of
    an instruction, in the order of the source. *)
Definition instructions_of (html : string) : string :=
  Str.replace "</div>" ""
    (Str.replace "<div>" " "
       (Str.replace "</b>" ""
          (Str.replace "<b>" "" html))).

(** The instructions as the specification words them: the four tags
    removed, nothing put in their place. *)
Definition tags_removed (html : string) : string :=
  Str.replace "</div>" ""
    (Str.replace "<div>" ""
       (Str.replace "</b>" ""
          (Str.replace "<b>" "" html))).

(** None of the four tags occurs in the text. *)
Definition tag_free (html : string) : bool :=
  negb (Str.contains "<b>" html) && negb (Str.contains "</b>" html)
  && negb (Str.contains "<div>" html) && negb (Str.contains "</div>" html).

Definition directions_header (summary distance duration : pyval) (mode : string) : string :=
  nl ++ "Route Summary: " ++ str summary ++ nl
  ++ "Distance: " ++ str distance ++ nl
  ++ "Duration: " ++ str duration ++ nl
  ++ "Travel Mode: " ++ Str.title mode ++ nl
  ++ nl
  ++ "Turn-by-Turn Directions:" ++ nl.

(** The line of the step numbered [i]. *)
Definition step_line (i : nat) (step : pyval) (line : string) : Prop :=
  exists html distance duration,
    item step "html_instructions" = Ok (PStr html)
    /\ text_of step "distance" = Ok distance
    /\ text_of step "duration" = Ok duration
    /\ line = str_of_nat i ++ ". " ++ instructions_of html
              ++ " (" ++ str distance ++ ", " ++ str duration ++ ")" ++ nl.

Definition directions_params (origin destination mode : string) : pydict :=
  [("origin", PStr origin); ("destination", PStr destination); ("mode", PStr mode)].

(** A route of one leg whose single step is an instruction with a
    [div] in it. *)
Definition measure (text : string) : pyval := PDict [("text", PStr text)].
Definition sample_step (html : string) : pyval :=
  PDict [("html_instructions", PStr html);
         ("distance", measure "1 km"); ("duration", measure "2 mins")].
Definition sample_html : string := "Head <b>north</b><div>Toll road</div>".
Definition sample_directions : pydict :=
  [("status", PStr "OK");
   ("routes", PList [PDict [("summary", PStr "I-5");
                            ("legs", PList [PDict [("distance", measure "1 km");
                                                   ("duration", measure "2 mins");
                                                   ("steps", PList [sample_step sample_html])]])]])].
Definition sample_directions_report (instructions : string) : string :=
  directions_header (PStr "I-5") (PStr "1 km") (PStr "2 mins") "driving"
  ++ "1. " ++ instructions ++ " (1 km, 2 mins)" ++ nl.

Definition details_params (place_id : string) : pydict :=
  [("place_id", PStr place_id);
   ("fields", PStr "name,formatted_address,formatted_phone_number,website,rating,reviews,opening_hours,geometry")].

(** The entry of a review, with [shown] for the text as it is shown. *)
Definition review_entry (author_name rating shown : pyval) : string :=
  nl ++ "- " ++ str author_name ++ " (" ++ str rating ++ " stars): "
  ++ str shown ++ "..." ++ nl.

(** The entry get_place_details writes for a review. *)
Definition review_line (review : pyval) (line : string) : Prop :=
  exists author_name rating text shown,
    item review "author_name" = Ok author_name
    /\ item review "rating" = Ok rating
    /\ item review "text" = Ok text
    /\ slice_to text 200 = Ok shown
    /\ line = review_entry author_name rating shown.

(** A place with four reviews, the first of 250 characters. *)
Definition sample_review (author_name text : string) : pyval :=
  PDict [("author_name", PStr author_name); ("rating", PInt 5); ("text", PStr text)].
Definition long_text : string := Str.repeat "a" 250.
Definition sample_reviews : list pyval :=
  [sample_review "Ann" long_text; sample_review "Bob" "Fine";
   sample_review "Cyd" "Good"; sample_review "Dan" "Bad"].
Definition sample_place : pydict :=
  [("name", PStr "Cafe"); ("reviews", PList sample_reviews)].
Definition sample_details : pydict :=
  [("status", PStr "OK"); ("result", PDict sample_place)].

Definition matrix_params (origins destinations : list string) (mode : string) : pydict :=
  [("origins", PStr (Str.join "|" origins));
   ("destinations", PStr (Str.join "|" destinations));
   ("mode", PStr mode)].

Definition matrix_title (mode : string) : string :=
  "Distance Matrix (" ++ Str.title mode ++ " mode):" ++ nl ++ nl.

(** [data["rows"][i]["elements"][j]] *)
Definition matrix_element (data : pydict) (i j : nat) : result pyval :=
  rows <- item (PDict data) "rows" ;;
  row <- index rows i ;;
  elements <- item row "elements" ;;
  index elements j.

Definition route_line (destination distance duration : pyval) : string :=
  "  To " ++ str destination ++ ": " ++ str distance ++ " (" ++ str duration ++ ")" ++ nl.

Definition no_route_line (destination : pyval) : string :=
  "  To " ++ str destination ++ ": Route not available" ++ nl.

(** The line of a destination, from the element of its pair. *)
Definition to_line (destination element : pyval) (line : string) : Prop :=
  exists status,
    item element "status" = Ok status
    /\ if eq_str status "OK"
       then exists distance duration,
              text_of element "distance" = Ok distance
              /\ text_of element "duration" = Ok duration
              /\ line = route_line destination distance duration
       else line = no_route_line destination.

(** The block of an origin: its line, the lines of the destinations and
    an empty line. *)
Definition from_block (origin : pyval) (lines : list string) : string :=
  "From: " ++ str origin ++ nl ++ Str.cat lines ++ nl.

(** The element has a status, and the two texts when the status is "OK". *)
Definition element_renders (element : pyval) : bool :=
  match item element "status" with
  | Ok status =>
      if eq_str status "OK"
      then returns (text_of element "distance") && returns (text_of element "duration")
      else true
  | Raise _ => false
  end.

(** Two origins and one destination; the second pair has no route. *)
Definition sample_matrix : pydict :=
  [("status", PStr "OK");
   ("origin_addresses", PList [PStr "A st"; PStr "B st"]);
   ("destination_addresses", PList [PStr "C st"]);
   ("rows", PList
      [PDict [("elements", PList [PDict [("status", PStr "OK");
                                         ("distance", measure "1 km");
                                         ("duration", measure "2 mins")]])];
       PDict [("elements", PList [PDict [("status", PStr "ZERO_RESULTS")]])]])].

(** The line of the pair [i], [j], as the inner loop of
    calculate_distance_matrix makes it, and the block of the origin [i],
    as the outer loop makes it. *)
Definition pair_line (data : pydict) (i : nat) : nat * pyval -> result string :=
  fun '(j, destination) =>
    rows <- item (PDict data) "rows" ;;
    row <- index rows i ;;
    elements <- item row "elements" ;;
    element <- index elements j ;;
    status <- item element "status" ;;
    if eq_str status "OK" then
      distance <- item element "distance" ;;
      distance <- item distance "text" ;;
      duration <- item element "duration" ;;
      duration <- item duration "text" ;;
      Ok ("  To " ++ str destination ++ ": " ++ str distance
          ++ " (" ++ str duration ++ ")" ++ nl)
    else
      Ok ("  To " ++ str destination ++ ": Route not available" ++ nl).

Definition origin_block (data : pydict) (ds : list pyval) : nat * pyval -> result string :=
  fun '(i, origin) =>
    lines <- for_each (pair_line data i) (enumerate 0 ds) ;;
    Ok (from_block origin lines).

(** [record[field]] as a float *)
Definition number_of (record : pyval) (field : string) : result float :=
  v <- item record field ;; as_float v.

(** The lines of the record numbered [i] (from 0), for the elevation
    [meters] and the resolution [resolution]. *)
Definition elevation_chunk (i : nat) (lat lng : pyval) (meters resolution : float) : string :=
  "Location " ++ str_of_nat (i + 1) ++ ": " ++ str lat ++ ", " ++ str lng ++ nl
  ++ "Elevation: " ++ PyFloat.format_2f meters ++ " meters ("
  ++ PyFloat.format_2f (meters * feet_per_meter)%float ++ " feet)" ++ nl
  ++ "Resolution: " ++ PyFloat.format_2f resolution ++ " meters" ++ nl ++ nl.

Definition record_chunk (i : nat) (record : pyval) (chunk : string) : Prop :=
  exists location lat lng meters resolution,
    item record "location" = Ok location
    /\ item location "lat" = Ok lat
    /\ item location "lng" = Ok lng
    /\ number_of record "elevation" = Ok meters
    /\ number_of record "resolution" = Ok resolution
    /\ chunk = elevation_chunk i lat lng meters resolution.

Definition is_digit (c : ascii) : bool :=
  let n := nat_of_ascii c in (48 <=? n)%nat && (n <=? 57)%nat.

Fixpoint all_digits (s : string) : bool :=
  match s with
  | "" => true
  | String c s' => is_digit c && all_digits s'
  end.

(** The text is a number with exactly two digits after the point. *)
Definition two_decimals (s : string) : Prop :=
  exists sgn whole d1 d2,
    s = sgn ++ whole ++ "." ++ String d1 (String d2 "")
    /\ (sgn = "" \/ sgn = "-")
    /\ whole <> ""
    /\ all_digits whole = true
    /\ is_digit d1 = true /\ is_digit d2 = true.

Definition pad2_ok (r : Z) : bool :=
  match PyFloat.pad2 r with
  | String d1 (String d2 "") => is_digit d1 && is_digit d2
  | _ => false
  end.

(** One record at sea level, and one whose elevation is the float that
    the JSON number 1e999 is read as. *)
Definition elevation_record (meters : pyval) : pyval :=
  PDict [("elevation", meters);
         ("location", PDict [("lat", PFloat 0); ("lng", PFloat 0)]);
         ("resolution", PFloat 1)].
Definition elevation_payload (meters : pyval) : pydict :=
  [("status", PStr "OK"); ("results", PList [elevation_record meters])].
Definition origin_location : list (string * float) := [("lat", 0%float); ("lng", 0%float)].
Definition elevation_request (key : string) : request :=
  gateway_request key "elevation/json" [("locations", PStr "0.0,0.0")].





(** ** The shape of a payload a tool renders

    A tool reads some fields with a subscript and others with [get] and
    a default.  The predicates below say which fields of which values a
    tool reads with a subscript, and what it needs them to be. *)
















(** A geocoding result without its geometry. *)
Definition bare_result : pydict :=
  [("status", PStr "OK");
   ("results", PList [PDict [("formatted_address", PStr "1 Main St");
                             ("place_id", PStr "abc")]])].

(** ** Vocabulary of the further properties *)

(** The endpoint a tool queries. *)
Definition endpoint_of (c : call) : string :=
  match c with
  | GeocodeAddress _ | ReverseGeocode _ _ => "geocode/json"
  | SearchPlaces _ _ _ => "place/textsearch/json"
  | GetPlaceDetails _ => "place/details/json"
  | GetDirections _ _ _ => "directions/json"
  | CalculateDistanceMatrix _ _ _ => "distancematrix/json"
  | GetElevation _ => "elevation/json"
  end.

(** A location of get_elevation as the request has it, when it has both
    coordinates. *)
Definition location_string (loc : list (string * float)) : option string :=
  match coordinate loc "lat", coordinate loc "lng" with
  | Ok lat, Ok lng => Some (PyFloat.repr lat ++ "," ++ PyFloat.repr lng)
  | _, _ => None
  end.

Fixpoint location_strings (locations : list (list (string * float))) : option (list string) :=
  match locations with
  | [] => Some []
  | loc :: rest =>
      match location_string loc, location_strings rest with
      | Some s, Some ss => Some (s :: ss)
      | _, _ => None
      end
  end.

(** The parameters a tool makes of its arguments; none when the tool
    stops before the gateway. *)
Definition arguments_of (c : call) : option pydict :=
  match c with
  | GeocodeAddress address => Some [("address", PStr address)]
  | ReverseGeocode latitude longitude =>
      Some [("latlng", PStr (PyFloat.repr latitude ++ "," ++ PyFloat.repr longitude))]
  | SearchPlaces query location radius => Some (search_params query location radius)
  | GetPlaceDetails place_id => Some (details_params place_id)
  | GetDirections origin destination mode =>
      if mode_in mode travel_modes
      then Some (directions_params origin destination mode) else None
  | CalculateDistanceMatrix origins destinations mode =>
      if mode_in mode travel_modes
      then Some (matrix_params origins destinations mode) else None
  | GetElevation locations =>
      match location_strings locations with
      | Some ss => Some [("locations", PStr (Str.join "|" ss))]
      | None => None
      end
  end.

(** The first lines of get_place_details, with the placeholder of every
    field the place does not have. *)
Definition details_head (place : pydict) : string :=
  nl ++ "Name: " ++ str (get_or place "name" (PStr "Unknown")) ++ nl
  ++ "Address: " ++ str (get_or place "formatted_address" (PStr "Address not available")) ++ nl
  ++ "Phone: " ++ str (get_or place "formatted_phone_number" (PStr "Phone not available")) ++ nl
  ++ "Website: " ++ str (get_or place "website" (PStr "Website not available")) ++ nl
  ++ "Rating: " ++ str (get_or place "rating" (PStr "No rating")) ++ " stars" ++ nl.

(** The block search_places writes for a place. *)
Definition place_block (place : pyval) (block : string) : Prop :=
  exists d name types place_id,
    place = PDict d
    /\ lookup d "name" = Some name
    /\ join ", " (get_or d "types" (PList [])) = Ok types
    /\ lookup d "place_id" = Some place_id
    /\ block = nl ++ "Name: " ++ str name ++ nl
               ++ "Address: "
               ++ str (get_or d "formatted_address" (PStr "Address not available")) ++ nl
               ++ "Rating: " ++ str (get_or d "rating" (PStr "No rating")) ++ " stars" ++ nl
               ++ "Types: " ++ types ++ nl
               ++ "Place ID: " ++ str place_id ++ nl.

(** Places for the examples. *)
Definition sample_place_of (name : string) : pyval :=
  PDict [("name", PStr name); ("place_id", PStr "id")].
Definition six_places : list pyval :=
  map sample_place_of ["P1"; "P2"; "P3"; "P4"; "P5"; "P6"].
Definition places_payload : pydict :=
  [("status", PStr "OK"); ("results", PList six_places)].

(** A payload whose status is not the success marker. *)
Definition denied : pydict :=
  [("status", PStr "REQUEST_DENIED"); ("error_message", PStr "The provided API key is invalid.")].

Definition open_place : pydict :=
  [("name", PStr "Cafe");
   ("opening_hours", PDict [("weekday_text", PList (map PStr ["Mon: 9-5"; "Tue: 9-5"]))])].
Definition open_details : pydict :=
  [("status", PStr "OK"); ("result", PDict open_place)].

(** A world whose object 0 is a mapping that has an entry under "key". *)
Definition keyed_world : world :=
  {| heap := fun _ => [("key", PStr "mine"); ("address", PStr "x")];
     next_ref := 1; stdout := []; sent := [] |}.

Definition two_results (extra : pyval) : pydict :=
  [("status", PStr "OK"); ("results", PList [PDict scenario_result; extra])].

(** What get_place_details adds to the first lines for the opening
    hours of the place: nothing when the place has none, else the texts
    of the days, if any, and the line that says whether it is open. *)
Definition opening_hours_text (place : pydict) : result string :=
  if truthy (get place "opening_hours") then
    hours <- item (PDict place) "opening_hours" ;;
    weekday_text <- get_attr hours "weekday_text" ;;
    days <-
      (if truthy weekday_text then
         weekday_text <- item hours "weekday_text" ;;
         lines <- join nl weekday_text ;;
         Ok (nl ++ "Opening Hours:" ++ nl ++ lines)
       else Ok "") ;;
    open_now <- get_attr hours "open_now" ;;
    Ok (days ++ nl ++ "Currently Open: " ++ (if truthy open_now then "Yes" else "No"))
  else Ok "".





(** * Properties *)

(** ** The gateway *)

Lemma make_google_request_run (endpoint : string) (params : nat) (e : env) (w : world) :
  let req := gateway_request (GOOGLE_MAPS_API_KEY e) endpoint (heap w params) in
  let o := http_get e req in
  make_google_request endpoint params e w
  = (Ok (gateway_payload o),
     {| heap := fun r => if (r =? params)%nat
                         then set (heap w params) "key" (PStr (GOOGLE_MAPS_API_KEY e))
                         else heap w r;
        next_ref := next_ref w;
        stdout := stdout w ++ gateway_log o;
        sent := sent w ++ [req] |}).
Proof.
  cbv zeta.
  unfold make_google_request, mbind, the_key, setitem, client_get, gateway_request.
  cbn [heap next_ref stdout sent].
  rewrite Nat.eqb_refl.
  destruct (http_get e _) as [x | x | x | data]; cbn;
    try reflexivity.
  destruct data; cbn; try reflexivity.
  destruct (eq_str (get d "status") "OK"); cbn; try reflexivity.
  now rewrite app_nil_r.
Qed.

(** A tool's run: a fresh parameter mapping, the gateway, then the
    report, which has no effect. *)
Lemma tool_run (d : pydict) (endpoint : string) (body : option pydict -> result string)
    (e : env) (w : world) :
  let req := gateway_request (GOOGLE_MAPS_API_KEY e) endpoint d in
  let o := http_get e req in
  exists w',
    (params <-- new_dict d ;;
     data <-- make_google_request endpoint params ;;
     evaluate (body data)) e w = (body (gateway_payload o), w')
    /\ stdout w' = (stdout w ++ gateway_log o)%list
    /\ sent w' = (sent w ++ [req])%list.
Proof.
  unfold mbind, new_dict, evaluate. cbv beta iota zeta.
  rewrite make_google_request_run.
  cbn [heap next_ref stdout sent]. rewrite Nat.eqb_refl.
  eexists. split; [reflexivity|]. split; reflexivity.
Qed.

Lemma search_places_run (query : string) (location : option string) (radius : option Z)
    (body : option pydict -> result string) (e : env) (w : world) :
  let req := gateway_request (GOOGLE_MAPS_API_KEY e) "place/textsearch/json"
               (search_params query location radius) in
  let o := http_get e req in
  exists w',
    (params <-- new_dict [("query", PStr query)] ;;
     _ <-- match location with
           | Some l => if negb (l =? "") then setitem params "location" (PStr l) else ret tt
           | None => ret tt
           end ;;
     _ <-- match radius with
           | Some r => if negb (r =? 0)%Z
                       then setitem params "radius" (PStr (Str.of_Z r)) else ret tt
           | None => ret tt
           end ;;
     data <-- make_google_request "place/textsearch/json" params ;;
     evaluate (body data)) e w = (body (gateway_payload o), w')
    /\ stdout w' = (stdout w ++ gateway_log o)%list
    /\ sent w' = (sent w ++ [req])%list.
Proof.
  unfold search_params.
  destruct location as [l|]; [destruct (negb (l =? ""))|];
    (destruct radius as [r|]; [destruct (negb (r =? 0)%Z)|]);
    unfold mbind, new_dict, setitem, ret, evaluate; cbv beta iota zeta;
    rewrite make_google_request_run;
    cbn [heap next_ref stdout sent]; rewrite ?Nat.eqb_refl;
    (eexists; split; [reflexivity|]; split; reflexivity).
Qed.

(** ** The shape every tool has

    A tool either answers at once, leaving the world as it is, or it
    issues one request, whose parameters and endpoint depend on the call
    alone, and passes what the gateway returns through the guard. *)
Ltac by_tool_run :=
  lazymatch goal with
  | |- context [ (mbind (new_dict ?d)
                    (fun params => mbind (make_google_request ?ep params)
                       (fun data => evaluate (unless_absent data ?f ?m ?r)))) ?e ?w ] =>
      exact (tool_run d ep (fun data => unless_absent data f m r) e w)
  end.

(** Replaces the run of a tool that reaches the gateway by its report. *)
Ltac run_tool :=
  lazymatch goal with
  | |- context [ (mbind (new_dict ?d)
                    (fun params => mbind (make_google_request ?ep params)
                       (fun data => evaluate (@?body data)))) ?e ?w ] =>
      let w' := fresh "w'" in
      let Hrun := fresh "Hrun" in
      let Hout := fresh "Hstdout" in
      let Hsent := fresh "Hsent" in
      destruct (tool_run d ep body e w) as (w' & Hrun & Hout & Hsent);
      rewrite Hrun
  end.

(** Evaluates the subscripts whose lookups are among the hypotheses. *)
Ltac eval_lookups :=
  repeat (match goal with
          | H : lookup _ _ = _ |- _ => rewrite H
          end;
          cbn [bind nth_error]).

Lemma invoke_shape (c : call) :
  (exists r, forall e w, invoke c e w = (r, w))
  \/
  (exists d endpoint render, forall e w,
      let req := gateway_request (GOOGLE_MAPS_API_KEY e) endpoint d in
      let o := http_get e req in
      exists w',
        invoke c e w
        = (unless_absent (gateway_payload o) (expected_field c) (fixed_message c) render, w')
        /\ stdout w' = (stdout w ++ gateway_log o)%list
        /\ sent w' = (sent w ++ [req])%list).
Proof.
  destruct c as [address | latitude longitude | query location radius | place_id
                | origin destination mode | origins destinations mode | locations];
    cbn [invoke expected_field fixed_message].
  - right. do 3 eexists. intros e w. unfold geocode_address. by_tool_run.
  - right. do 3 eexists. intros e w. unfold reverse_geocode. by_tool_run.
  - right. do 3 eexists. intros e w. unfold search_places.
    apply (search_places_run query location radius
             (fun data => unless_absent data "results" _ _)).
  - right. do 3 eexists. intros e w. unfold get_place_details. by_tool_run.
  - unfold get_directions.
    destruct (negb (mode_in mode travel_modes)).
    + left. eexists. intros e w. reflexivity.
    + right. do 3 eexists. intros e w. by_tool_run.
  - unfold calculate_distance_matrix.
    destruct (negb (mode_in mode travel_modes)).
    + left. eexists. intros e w. reflexivity.
    + right. do 3 eexists. intros e w. by_tool_run.
  - unfold get_elevation.
    destruct (for_each _ locations) as [location_strings | x].
    + right. do 3 eexists. intros e w.
      unfold mbind at 1, evaluate at 1. by_tool_run.
    + left. eexists. intros e w. reflexivity.
Qed.

Lemma mbind_evaluate_ok {A B : Type} (a : A) (k : A -> M B) (e : env) (w : world) :
  (x <-- evaluate (Ok a) ;; k x) e w = k a e w.
Proof. reflexivity. Qed.

Lemma location_strings_for_each (locations : list (list (string * float))) :
  match location_strings locations with
  | Some ss =>
      for_each (fun loc =>
          lat <- coordinate loc "lat" ;;
          lng <- coordinate loc "lng" ;;
          Ok (PyFloat.repr lat ++ "," ++ PyFloat.repr lng)) locations = Ok ss
  | None =>
      for_each (fun loc =>
          lat <- coordinate loc "lat" ;;
          lng <- coordinate loc "lng" ;;
          Ok (PyFloat.repr lat ++ "," ++ PyFloat.repr lng)) locations = Raise KeyError
  end.
Proof.
  assert (Hc : forall loc k, coordinate loc k = Raise KeyError
                             \/ exists f, coordinate loc k = Ok f).
  { intros loc k. induction loc as [| [k' f] loc IH]; cbn; [now left|].
    destruct (k' =? k); [right; now eexists | exact IH]. }
  induction locations as [| loc rest IH]; [reflexivity|].
  cbn [location_strings for_each]. unfold location_string.
  destruct (Hc loc "lat") as [-> | (lat & ->)]; cbn [bind]; [reflexivity|].
  destruct (Hc loc "lng") as [-> | (lng & ->)]; cbn [bind]; [reflexivity|].
  destruct (location_strings rest) as [ss |]; now rewrite IH.
Qed.

(** The request of a call: the one of its endpoint and arguments, or
    none. *)
Lemma invoke_sends (c : call) (e : env) (w : world) :
  sent (snd (invoke c e w))
  = (sent w ++ match arguments_of c with
               | Some d => [gateway_request (GOOGLE_MAPS_API_KEY e) (endpoint_of c) d]
               | None => []
               end)%list.
Proof.
  destruct c as [address | latitude longitude | query location radius | place_id
                | origin destination mode | origins destinations mode | locations];
    cbn [invoke arguments_of endpoint_of].
  - unfold geocode_address. run_tool. assumption.
  - unfold reverse_geocode. run_tool. assumption.
  - unfold search_places.
    match goal with
    | |- context [evaluate (unless_absent _ _ _ ?r)] =>
        destruct (search_places_run query location radius
                    (fun data => unless_absent data "results"
                                   "No places found for the search query." r) e w)
          as (w' & -> & _ & Hsent)
    end.
    assumption.
  - unfold get_place_details. run_tool. assumption.
  - unfold get_directions. destruct (mode_in mode travel_modes); cbn [negb].
    + run_tool. assumption.
    + cbn. now rewrite app_nil_r.
  - unfold calculate_distance_matrix. destruct (mode_in mode travel_modes); cbn [negb].
    + run_tool. assumption.
    + cbn. now rewrite app_nil_r.
  - unfold get_elevation.
    pose proof (location_strings_for_each locations) as H.
    destruct (location_strings locations) as [ss |]; rewrite H.
    + rewrite mbind_evaluate_ok. run_tool. assumption.
    + cbn. now rewrite app_nil_r.
Qed.



(** ** Helper facts *)

Lemma not_extended {A : Type} (l : list A) (x : A) : l <> (l ++ [x])%list.
Proof.
  intros H. apply (f_equal (@List.length A)) in H.
  rewrite length_app in H. cbn in H. lia.
Qed.

Lemma mode_in_In (mode : string) (l : list string) :
  mode_in mode l = true <-> In mode l.
Proof.
  unfold mode_in. rewrite existsb_exists. split.
  - intros (x & Hx & Heq). apply String.eqb_eq in Heq. now subst.
  - intros H. exists mode. split; [assumption | apply String.eqb_refl].
Qed.

Lemma lookup_set_same (d : pydict) (k : string) (v : pyval) :
  lookup (set d k v) k = Some v.
Proof.
  induction d as [| [k' v'] d IH]; cbn.
  - now rewrite String.eqb_refl.
  - destruct (k' =? k) eqn:E; cbn; now rewrite E.
Qed.

Lemma lookup_set_other (d : pydict) (k k0 : string) (v : pyval) :
  k0 <> k -> lookup (set d k v) k0 = lookup d k0.
Proof.
  intros Hne. induction d as [| [k' v'] d IH]; cbn.
  - destruct (k =? k0) eqn:E; [apply String.eqb_eq in E; congruence | reflexivity].
  - destruct (k' =? k) eqn:E; cbn.
    + apply String.eqb_eq in E. subst k'.
      destruct (k =? k0) eqn:E'; [apply String.eqb_eq in E'; congruence | reflexivity].
    + now rewrite IH.
Qed.

Lemma failure_payload (o : http_outcome) :
  upstream_failure o = true -> gateway_payload o = None.
Proof.
  destruct o as [x | x | x | data]; cbn; try reflexivity.
  destruct data; cbn; try reflexivity.
  now destruct (eq_str (get d "status") "OK").
Qed.

Lemma empty_payload (field : string) (o : http_outcome) :
  empty_result field o = true ->
  exists d, gateway_payload o = Some d /\ not_ (get d field) = true.
Proof.
  destruct o as [x | x | x | data]; cbn; try discriminate.
  destruct data; cbn; try discriminate.
  destruct (eq_str (get d "status") "OK"); cbn; [|discriminate].
  intros H. now exists d.
Qed.


Lemma unless_absent_empty (d : pydict) (field message : string)
    (body : pydict -> result string) :
  not_ (get d field) = true ->
  unless_absent (Some d) field message body = Ok message.
Proof.
  intros H. unfold unless_absent. rewrite H. now rewrite orb_true_r.
Qed.

(** ** Claims on the gateway and on the early checks *)

(** C1, as the code has it.  When the gateway has no result for a
    tool (the network, the HTTP status or the body failed, or the
    payload's status is not "OK"), or the payload has nothing under the
    field the tool expects, the tool returns its fixed message and raises
    nothing.  The request is the one of the tool's endpoint and
    arguments.  The fixed message starts with "Unable to" for six tools
    and reads "No places found for the search query." for search_places.
    The gateway itself returns the absent result on each of the failure
    paths. *)
Theorem upstream_failure_yields_fixed_message :
  (forall (endpoint : string) (params : nat) (e : env) (w : world),
      upstream_failure
        (http_get e (gateway_request (GOOGLE_MAPS_API_KEY e) endpoint (heap w params))) = true ->
      fst (make_google_request endpoint params e w) = Ok None)
  /\
  (forall (c : call) (e : env) (w : world) (d : pydict),
      arguments_of c = Some d ->
      let o := http_get e (gateway_request (GOOGLE_MAPS_API_KEY e) (endpoint_of c) d) in
      upstream_failure o = true \/ empty_result (expected_field c) o = true ->
      fst (invoke c e w) = Ok (fixed_message c))
  /\
  (forall c : call,
      match c with
      | SearchPlaces _ _ _ => fixed_message c = "No places found for the search query."
      | _ => Str.starts_with "Unable to " (fixed_message c) = true
      end).
Proof.
  split; [| split].
  - intros endpoint params e w H.
    rewrite make_google_request_run. cbn [fst].
    now rewrite (failure_payload _ H).
  - intros c e w d Hargs. cbv zeta.
    pose proof (invoke_sends c e w) as Hc. rewrite Hargs in Hc.
    destruct (invoke_shape c) as [[r Hr] | (d' & endpoint & render & Hrun)].
    + rewrite Hr in Hc. cbn [snd] in Hc. now apply not_extended in Hc.
    + destruct (Hrun e w) as (w' & Hrun' & _ & Hsent).
      rewrite Hrun' in Hc |- *. cbn [fst snd] in Hc |- *.
      rewrite Hsent in Hc. apply app_inv_head in Hc.
      assert (Hreq : gateway_request (GOOGLE_MAPS_API_KEY e) endpoint d'
                     = gateway_request (GOOGLE_MAPS_API_KEY e) (endpoint_of c) d)
        by congruence.
      rewrite Hreq. intros [Hf | He].
      * now rewrite (failure_payload _ Hf).
      * destruct (empty_payload _ _ He) as (d0 & -> & Hd0).
        now apply unless_absent_empty.
  - intros []; reflexivity.
Qed.

(** C3. A travel mode outside driving, walking, bicycling and transit
    makes get_directions and calculate_distance_matrix return the error
    text at once: the world is left as it was, so no request was sent. *)
Theorem invalid_mode_rejected_without_request :
  forall (mode : string) (e : env) (w : world),
    ~ In mode ["driving"; "walking"; "bicycling"; "transit"] ->
    (forall origin destination,
        get_directions origin destination mode e w = (Ok invalid_mode_message, w))
    /\ (forall origins destinations,
        calculate_distance_matrix origins destinations mode e w
        = (Ok invalid_mode_message, w))
    /\ (forall origin destination,
        sent (snd (get_directions origin destination mode e w)) = sent w)
    /\ (forall origins destinations,
        sent (snd (calculate_distance_matrix origins destinations mode e w)) = sent w).
Proof.
  intros mode e w Hmode.
  assert (Hin : mode_in mode travel_modes = false).
  { destruct (mode_in mode travel_modes) eqn:E; [|reflexivity].
    apply mode_in_In in E. contradiction. }
  unfold get_directions, calculate_distance_matrix. rewrite Hin. cbn [negb].
  repeat split.
Qed.

(** C10. The gateway writes the credential into the caller's parameter
    mapping itself, under "key", and the request it then issues carries
    the mapping so extended; the other entries of the mapping, and the
    other mappings, are as they were. *)
Theorem make_google_request_inserts_key :
  forall (endpoint : string) (params : nat) (e : env) (w : world),
    let w' := snd (make_google_request endpoint params e w) in
    lookup (heap w' params) "key" = Some (PStr (GOOGLE_MAPS_API_KEY e))
    /\ (forall k, k <> "key" -> lookup (heap w' params) k = lookup (heap w params) k)
    /\ (forall r, r <> params -> heap w' r = heap w r)
    /\ (exists req, sent w' = (sent w ++ [req])%list
                    /\ req_params req = heap w' params).
Proof.
  intros endpoint params e w. cbv zeta.
  rewrite make_google_request_run. cbn [snd heap sent].
  rewrite Nat.eqb_refl. repeat split.
  - apply lookup_set_same.
  - intros k Hk. now apply lookup_set_other.
  - intros r Hr. apply Nat.eqb_neq in Hr. now rewrite Hr.
  - eexists. split; reflexivity.
Qed.

Lemma upstream_failure_yields_fixed_message_witness :
  fst (make_google_request "geocode/json" 0 (answering "K" (BadStatus "503")) initial_world)
  = Ok None
  /\ fst (invoke (GeocodeAddress "x") (answering "K" (NetworkFailure "timed out"))
            initial_world)
     = Ok "Unable to geocode the provided address."
  /\ fst (invoke (ReverseGeocode 1.5 2) (answering "K" (BadStatus "503")) initial_world)
     = Ok "Unable to reverse geocode the provided coordinates."
  /\ fst (invoke (SearchPlaces "pizza" None None)
            (answering "K" (JsonBody (PDict [("status", PStr "ZERO_RESULTS")])))
            initial_world)
     = Ok "No places found for the search query."
  /\ fst (invoke (GetPlaceDetails "pid")
            (answering "K" (JsonBody (PDict [("status", PStr "OK")]))) initial_world)
     = Ok "Unable to fetch place details."
  /\ fst (invoke (GetDirections "A" "B" "walking")
            (answering "K" (JsonBody (PDict [("status", PStr "OK"); ("routes", PList [])])))
            initial_world)
     = Ok "Unable to find directions for the specified route."
  /\ fst (invoke (CalculateDistanceMatrix ["A"] ["B"] "transit")
            (answering "K" (BadBody "Expecting value")) initial_world)
     = Ok "Unable to calculate distance matrix."
  /\ fst (invoke (GetElevation [origin_location])
            (answering "K" (JsonBody (PList []))) initial_world)
     = Ok "Unable to fetch elevation data.".
Proof.
  pose proof (proj1 (proj2 upstream_failure_yields_fixed_message)) as tools.
  split.
  { apply (proj1 upstream_failure_yields_fixed_message "geocode/json" 0%nat
             (answering "K" (BadStatus "503")) initial_world).
    reflexivity. }
  split.
  { apply (tools (GeocodeAddress "x")
             (answering "K" (NetworkFailure "timed out")) initial_world
             [("address", PStr "x")] eq_refl).
    left. reflexivity. }
  split.
  { apply (tools (ReverseGeocode 1.5 2)
             (answering "K" (BadStatus "503")) initial_world _ eq_refl).
    left. reflexivity. }
  split.
  { apply (tools (SearchPlaces "pizza" None None)
             (answering "K" (JsonBody (PDict [("status", PStr "ZERO_RESULTS")])))
             initial_world _ eq_refl).
    left. reflexivity. }
  split.
  { apply (tools (GetPlaceDetails "pid")
             (answering "K" (JsonBody (PDict [("status", PStr "OK")]))) initial_world
             _ eq_refl).
    right. reflexivity. }
  split.
  { apply (tools (GetDirections "A" "B" "walking")
             (answering "K" (JsonBody (PDict [("status", PStr "OK"); ("routes", PList [])])))
             initial_world _ eq_refl).
    right. reflexivity. }
  split.
  { apply (tools (CalculateDistanceMatrix ["A"] ["B"] "transit")
             (answering "K" (BadBody "Expecting value")) initial_world _ eq_refl).
    left. reflexivity. }
  apply (tools (GetElevation [origin_location])
           (answering "K" (JsonBody (PList []))) initial_world
           [("locations", PStr "0.0,0.0")]).
  - vm_compute. reflexivity.
  - left. reflexivity.
Defined.

(** C1 as the specification words it does not hold for search_places:
    on a failing upstream it returns "No places found for the search
    query.", which is not an "unable to ..." text. *)
Lemma search_places_message_is_not_unable :
  fst (invoke (SearchPlaces "pizza" None None)
         (answering "K" (NetworkFailure "timed out")) initial_world)
  = Ok "No places found for the search query."
  /\ Str.starts_with "Unable to" "No places found for the search query." = false
  /\ Str.contains "nable to" "No places found for the search query." = false.
Proof. repeat split; vm_compute; reflexivity. Qed.

Lemma invalid_mode_rejected_without_request_witness :
  ~ In "flying" ["driving"; "walking"; "bicycling"; "transit"]
  /\ get_directions "A" "B" "flying" (answering "K" (BadStatus "503")) initial_world
     = (Ok invalid_mode_message, initial_world).
Proof.
  assert (H : ~ In "flying" ["driving"; "walking"; "bicycling"; "transit"]).
  { intros [H | [H | [H | [H | []]]]]; discriminate H. }
  split; [exact H|].
  apply (invalid_mode_rejected_without_request "flying"
           (answering "K" (BadStatus "503")) initial_world H).
Defined.

(** ** The geocoding scenario *)

(** C9. Geocoding "1600 Amphitheatre Parkway, Mountain View, CA" when
    the upstream answers with one result (that formatted address, the
    location 37.4224764, -122.0842499 and that place id) returns a report
    with the formatted address, both coordinates and the place id as
    they are. *)
Theorem geocode_scenario_report :
  forall (e : env) (w : world) (data first geometry location : pydict),
    http_get e (gateway_request (GOOGLE_MAPS_API_KEY e) "geocode/json"
                  [("address", PStr scenario_address)]) = JsonBody (PDict data) ->
    lookup data "status" = Some (PStr "OK") ->
    lookup data "results" = Some (PList [PDict first]) ->
    lookup first "formatted_address" = Some (PStr scenario_formatted_address) ->
    lookup first "geometry" = Some (PDict geometry) ->
    lookup geometry "location" = Some (PDict location) ->
    lookup location "lat" = Some (PFloat 37.4224764) ->
    lookup location "lng" = Some (PFloat (-122.0842499)) ->
    lookup first "place_id" = Some (PStr scenario_place_id) ->
    fst (geocode_address scenario_address e w) = Ok scenario_report
    /\ Str.contains scenario_formatted_address scenario_report = true
    /\ Str.contains "37.4224764" scenario_report = true
    /\ Str.contains "-122.0842499" scenario_report = true
    /\ Str.contains scenario_place_id scenario_report = true.
Proof.
  intros e w data first geometry location Hget Hstatus Hresults Haddr Hgeo Hloc Hlat Hlng Hid.
  split; [| repeat split; vm_compute; reflexivity].
  unfold geocode_address.
  run_tool. cbn [fst]. rewrite Hget.
  unfold gateway_payload, get, get_or. rewrite Hstatus. cbn [eq_str String.eqb Ascii.eqb Bool.eqb].
  unfold unless_absent, get, get_or, item, index. rewrite Hresults.
  destruct data as [| entry data]; [discriminate Hstatus|].
  cbn [not_ truthy negb orb nth_error bind].
  eval_lookups. vm_compute. reflexivity.
Qed.

Lemma geocode_scenario_report_witness :
  fst (geocode_address scenario_address
         (answering "K" (JsonBody (PDict scenario_payload))) initial_world)
  = Ok scenario_report
  /\ Str.contains scenario_formatted_address scenario_report = true
  /\ Str.contains "37.4224764" scenario_report = true
  /\ Str.contains "-122.0842499" scenario_report = true
  /\ Str.contains scenario_place_id scenario_report = true.
Proof.
  apply (geocode_scenario_report
           (answering "K" (JsonBody (PDict scenario_payload))) initial_world
           scenario_payload scenario_result scenario_geometry scenario_location);
    reflexivity.
Defined.

(** ** Strings and loops *)

Lemma append_assoc (a b c : string) : (a ++ b) ++ c = a ++ (b ++ c).
Proof. induction a as [| x a IH]; cbn; [reflexivity | now rewrite IH]. Qed.

Lemma append_nil_r (a : string) : a ++ "" = a.
Proof. induction a as [| x a IH]; cbn; [reflexivity | now rewrite IH]. Qed.



Lemma bind_ok {A B : Type} (r : result A) (k : A -> result B) (b : B) :
  bind r k = Ok b -> exists a, r = Ok a /\ k a = Ok b.
Proof. destruct r as [a | x]; cbn; [now exists a | discriminate]. Qed.

(** A loop that appends to its accumulator what [f] makes of each item
    returns the accumulator followed by these pieces, in order. *)
Lemma for_loop_appends {A : Type} (f : A -> result string)
    (body : string -> A -> result string) (l : list A) (s : string) :
  (forall s x, body s x = (r <- f x ;; Ok (s ++ r))) ->
  for_loop body l s = (rs <- for_each f l ;; Ok (s ++ Str.cat rs)).
Proof.
  intros Hbody. revert s.
  induction l as [| x l IH]; intros s; cbn.
  - now rewrite append_nil_r.
  - rewrite Hbody. destruct (f x) as [r | ex]; cbn; [|reflexivity].
    rewrite IH. destruct (for_each f l) as [rs | ex]; cbn; [|reflexivity].
    now rewrite append_assoc.
Qed.

(** What [for_each] returns has one piece for each item. *)
Lemma for_each_ok {A B : Type} (f : A -> result B) (l : list A) (rs : list B) :
  for_each f l = Ok rs -> Forall2 (fun x r => f x = Ok r) l rs.
Proof.
  revert rs. induction l as [| x l IH]; intros rs; cbn.
  - intros H. injection H as <-. constructor.
  - intros H. apply bind_ok in H. destruct H as (r & Hr & H).
    apply bind_ok in H. destruct H as (rs' & Hrs & H).
    injection H as <-. constructor; [assumption | now apply IH].
Qed.

Lemma for_each_returns {A B : Type} (f : A -> result B) (l : list A) :
  (forall x, In x l -> returns (f x) = true) ->
  exists rs, for_each f l = Ok rs.
Proof.
  induction l as [| x l IH]; intros H; cbn.
  - now exists [].
  - assert (Hx : returns (f x) = true) by (apply H; now left).
    destruct (f x) as [r | ex]; [|discriminate Hx].
    destruct IH as (rs & ->); [intros y Hy; apply H; now right|].
    cbn. now exists (r :: rs).
Qed.

Lemma Forall2_nth {A B : Type} (P : A -> B -> Prop) (l : list A) (rs : list B) :
  Forall2 P l rs ->
  List.length rs = List.length l
  /\ forall i x r, nth_error l i = Some x -> nth_error rs i = Some r -> P x r.
Proof.
  induction 1 as [| x r l rs Hxr Hl IH]; cbn.
  - split; [reflexivity|]. intros [|i] x r; discriminate.
  - destruct IH as (Hlen & Hnth). split; [now rewrite Hlen|].
    intros [|i] x' r'; cbn.
    + intros [= <-] [= <-]. assumption.
    + apply Hnth.
Qed.

Lemma enumerate_length {A : Type} (start : nat) (l : list A) :
  List.length (enumerate start l) = List.length l.
Proof.
  revert start. induction l as [| x l IH]; intros start; cbn;
    [reflexivity | now rewrite IH].
Qed.

Lemma enumerate_nth {A : Type} (start : nat) (l : list A) (i : nat) :
  nth_error (enumerate start l) i
  = option_map (fun x => ((start + i)%nat, x)) (nth_error l i).
Proof.
  revert start i. induction l as [| x l IH]; intros start [|i]; cbn;
    try reflexivity.
  - now rewrite Nat.add_0_r.
  - rewrite IH. now rewrite Nat.add_succ_r.
Qed.

Lemma nth_error_firstn_lt {A : Type} (n i : nat) (l : list A) :
  (i < n)%nat -> nth_error (firstn n l) i = nth_error l i.
Proof.
  revert i l. induction n as [| n IH]; intros i l Hi; [lia|].
  destruct l as [| x l]; [now destruct i|].
  destruct i as [|i]; cbn; [reflexivity|]. apply IH. lia.
Qed.

Lemma replace_absent (old new s : string) :
  Str.contains old s = false -> Str.replace old new s = s.
Proof.
  unfold Str.replace. induction s as [| c s IH]; [reflexivity|].
  cbn [Str.contains Str.replace_from]. intros H.
  apply orb_false_iff in H. destruct H as (Hstart & Hrest).
  rewrite Hstart. now rewrite IH.
Qed.

(** ** Directions *)

(** Splits an equation [bind r k = Ok b] of the context. *)
Tactic Notation "bind_inv" hyp(H) "as" ident(a) ident(Ha) :=
  apply bind_ok in H; destruct H as (a & Ha & H).

(** Proves that a chain of binds ending in [Ok (s ++ _)] is a bind of
    the chain that ends with the piece appended. *)
Ltac appends :=
  repeat (cbv zeta;
          match goal with
          | |- bind ?r _ = _ => destruct r; cbn [bind]; try reflexivity
          | |- (if ?b then _ else _) = _ => destruct b; cbn [bind]; try reflexivity
          end);
  cbv zeta; rewrite ?append_assoc; try reflexivity.

Lemma replace_ok (v : pyval) (old new : string) (r : pyval) :
  replace v old new = Ok r -> exists s, v = PStr s /\ r = PStr (Str.replace old new s).
Proof.
  destruct v; cbn; try discriminate. intros [= <-]. now eexists.
Qed.

Lemma tag_free_unchanged (html : string) :
  tag_free html = true -> instructions_of html = html.
Proof.
  unfold tag_free, instructions_of. intros H.
  repeat (apply andb_true_iff in H; destruct H as (H & ?)).
  repeat match goal with
         | H : negb _ = true |- _ => apply negb_true_iff in H
         end.
  rewrite (replace_absent "<b>" "" html) by assumption.
  rewrite (replace_absent "</b>" "" html) by assumption.
  rewrite (replace_absent "<div>" " " html) by assumption.
  now apply replace_absent.
Qed.

Lemma lookup_nonempty (d : pydict) (k : string) (v : pyval) :
  lookup d k = Some v -> truthy (PDict d) = true.
Proof. destruct d; [discriminate | reflexivity]. Qed.

(** What the guard lets through: a payload of status "OK" with
    something under the expected field. *)
Lemma payload_passes (d : pydict) (field message : string) (x : pyval)
    (body : pydict -> result string) :
  lookup d "status" = Some (PStr "OK") ->
  lookup d field = Some x -> truthy x = true ->
  unless_absent (gateway_payload (JsonBody (PDict d))) field message body = body d.
Proof.
  intros Hstatus Hfield Hx. unfold gateway_payload, get, get_or.
  rewrite Hstatus. cbn [eq_str]. rewrite String.eqb_refl.
  unfold unless_absent, not_, get, get_or.
  rewrite (lookup_nonempty _ _ _ Hstatus), Hfield, Hx. reflexivity.
Qed.

(** C5, as the code has it.  For a payload of status "OK" whose first
    route has a first leg with a list of steps, a get_directions call
    that returns has rendered the header and then one line for each of
    the first 10 steps, in order.  The instructions of a line are the
    text of the step after four replacements made one after the other:
    "<b>", "</b>" and "</div>" are deleted and "<div>" becomes one space.
    A text without any of the four tags is rendered as it is. *)
Theorem get_directions_renders_first_steps :
  forall (origin destination mode : string) (e : env) (w : world)
         (data : pydict) (route leg : pyval) (routes legs steps : list pyval)
         (out : string),
    In mode travel_modes ->
    http_get e (gateway_request (GOOGLE_MAPS_API_KEY e) "directions/json"
                  (directions_params origin destination mode)) = JsonBody (PDict data) ->
    lookup data "status" = Some (PStr "OK") ->
    lookup data "routes" = Some (PList (route :: routes)) ->
    item route "legs" = Ok (PList (leg :: legs)) ->
    item leg "steps" = Ok (PList steps) ->
    fst (get_directions origin destination mode e w) = Ok out ->
    (exists summary distance duration lines,
        get_attr_or route "summary" (PStr "Direct route") = Ok summary
        /\ text_of leg "distance" = Ok distance
        /\ text_of leg "duration" = Ok duration
        /\ out = directions_header summary distance duration mode ++ Str.cat lines
        /\ List.length lines = Nat.min 10 (List.length steps)
        /\ forall i step line,
             nth_error steps i = Some step -> nth_error lines i = Some line ->
             step_line (i + 1) step line)
    /\ (forall html, tag_free html = true -> instructions_of html = html).
Proof.
  intros origin destination mode e w data route leg routes legs steps out
         Hmode Hget Hstatus Hroutes Hlegs Hsteps Hret.
  split; [| apply tag_free_unchanged].
  apply mode_in_In in Hmode.
  unfold get_directions in Hret. rewrite Hmode in Hret. cbn [negb] in Hret.
  revert Hret. run_tool. fold (directions_params origin destination mode).
  rewrite Hget. cbn [fst].
  rewrite (payload_passes _ _ _ _ _ Hstatus Hroutes eq_refl).
  unfold item at 1. rewrite Hroutes. cbn [bind index nth_error].
  rewrite Hlegs. cbn [bind index nth_error].
  intros Hret.
  bind_inv Hret as summary Hsummary.
  bind_inv Hret as distance0 Hdistance0.
  bind_inv Hret as distance Hdistance.
  bind_inv Hret as duration0 Hduration0.
  bind_inv Hret as duration Hduration.
  rewrite Hsteps in Hret. cbn [bind slice_to iterate] in Hret.
  rewrite (for_loop_appends
             (fun '(i, step) =>
                html <- item step "html_instructions" ;;
                html <- replace html "<b>" "" ;;
                html <- replace html "</b>" "" ;;
                html <- replace html "<div>" " " ;;
                instructions <- replace html "</div>" "" ;;
                distance <- item step "distance" ;;
                distance <- item distance "text" ;;
                duration <- item step "duration" ;;
                duration <- item duration "text" ;;
                Ok (str_of_nat i ++ ". " ++ str instructions
                    ++ " (" ++ str distance ++ ", " ++ str duration ++ ")" ++ nl)))
    in Hret by (intros s [i step]; appends).
  bind_inv Hret as lines Hlines. injection Hret as <-.
  apply for_each_ok, Forall2_nth in Hlines. destruct Hlines as (Hlen & Hnth).
  rewrite enumerate_length, length_firstn in Hlen.
  exists summary, distance, duration, lines.
  split; [assumption|].
  split; [unfold text_of; now rewrite Hdistance0|].
  split; [unfold text_of; now rewrite Hduration0|].
  split; [reflexivity|]. split; [assumption|].
  intros i step line Hstep Hline.
  assert (Hi : (i < 10)%nat).
  { assert (i < List.length lines)%nat by (apply nth_error_Some; congruence). lia. }
  specialize (Hnth i ((1 + i)%nat, step) line).
  rewrite enumerate_nth, nth_error_firstn_lt, Hstep in Hnth by assumption.
  specialize (Hnth eq_refl Hline). cbn beta iota in Hnth.
  bind_inv Hnth as html0 Hhtml0.
  bind_inv Hnth as html1 Hhtml1.
  apply replace_ok in Hhtml1. destruct Hhtml1 as (html & -> & ->).
  cbn [replace bind] in Hnth.
  bind_inv Hnth as d0 Hd0. bind_inv Hnth as d Hd.
  bind_inv Hnth as t0 Ht0. bind_inv Hnth as t Ht.
  injection Hnth as <-.
  exists html, d, t. unfold text_of. rewrite Hd0, Ht0. cbn [bind].
  replace (i + 1)%nat with (1 + i)%nat by lia.
  repeat split; assumption || reflexivity.
Qed.

Lemma get_directions_renders_first_steps_witness :
  (exists summary distance duration lines,
      get_attr_or (PDict [("summary", PStr "I-5");
                          ("legs", PList [PDict [("distance", measure "1 km");
                                                 ("duration", measure "2 mins");
                                                 ("steps", PList [sample_step sample_html])]])])
        "summary" (PStr "Direct route") = Ok summary
      /\ text_of (PDict [("distance", measure "1 km"); ("duration", measure "2 mins");
                         ("steps", PList [sample_step sample_html])]) "distance" = Ok distance
      /\ text_of (PDict [("distance", measure "1 km"); ("duration", measure "2 mins");
                         ("steps", PList [sample_step sample_html])]) "duration" = Ok duration
      /\ sample_directions_report "Head north Toll road"
         = directions_header summary distance duration "driving" ++ Str.cat lines
      /\ List.length lines = Nat.min 10 (List.length [sample_step sample_html])
      /\ forall i step line,
           nth_error [sample_step sample_html] i = Some step ->
           nth_error lines i = Some line ->
           step_line (i + 1) step line)
  /\ (forall html, tag_free html = true -> instructions_of html = html).
Proof.
  apply (get_directions_renders_first_steps "A" "B" "driving"
           (answering "K" (JsonBody (PDict sample_directions))) initial_world
           sample_directions _ _ [] [] [sample_step sample_html]).
  - cbn. auto.
  - reflexivity.
  - reflexivity.
  - reflexivity.
  - reflexivity.
  - reflexivity.
  - vm_compute. reflexivity.
Defined.

(** C5 as the specification states it does not hold: the opening tag
    of a [div] is not removed but replaced by a space, so the rendered
    instructions differ from the text with the four tags removed. *)
Lemma get_directions_puts_space_for_div :
  fst (get_directions "A" "B" "driving"
         (answering "K" (JsonBody (PDict sample_directions))) initial_world)
  = Ok (sample_directions_report "Head north Toll road")
  /\ tags_removed sample_html = "Head northToll road"
  /\ sample_directions_report "Head north Toll road"
     <> sample_directions_report (tags_removed sample_html).
Proof.
  split; [vm_compute; reflexivity|]. split; [vm_compute; reflexivity|].
  apply String.eqb_neq. vm_compute. reflexivity.
Qed.

(** ** Place details *)

Lemma take_length (n : nat) (s : string) :
  (n <= String.length s)%nat -> String.length (Str.take n s) = n.
Proof.
  revert s. induction n as [| n IH]; intros s Hn; [reflexivity|].
  destruct s as [| c s]; cbn in *; [lia|]. rewrite IH; [reflexivity | lia].
Qed.

Lemma take_prefix (n : nat) (s : string) : String.prefix (Str.take n s) s = true.
Proof.
  revert s. induction n as [| n IH]; intros s; [now destruct s|].
  destruct s as [| c s]; cbn; [reflexivity|].
  destruct (ascii_dec c c) as [_ | Hc]; [apply IH | contradiction].
Qed.

(** The opening hours part of get_place_details appends
    [opening_hours_text] to the first lines. *)
Lemma opening_hours_appended (place : pydict) (details : string) :
  (if truthy (get_or place "opening_hours" PNone) then
     hours <- item (PDict place) "opening_hours" ;;
     weekday_text <- get_attr hours "weekday_text" ;;
     details <-
       (if truthy weekday_text then
          weekday_text <- item hours "weekday_text" ;;
          lines <- join nl weekday_text ;;
          Ok (details ++ (nl ++ "Opening Hours:" ++ nl) ++ lines)
        else Ok details) ;;
     open_now <- get_attr hours "open_now" ;;
     Ok (details ++ nl ++ "Currently Open: "
         ++ (if truthy open_now then "Yes" else "No"))
   else Ok details)
  = (text <- opening_hours_text place ;; Ok (details ++ text)).
Proof.
  unfold opening_hours_text, get.
  destruct (truthy (get_or place "opening_hours" PNone));
    [| cbn [bind]; now rewrite append_nil_r].
  destruct (item (PDict place) "opening_hours") as [hours | x]; [| reflexivity].
  cbn [bind].
  destruct (get_attr hours "weekday_text") as [weekday_text | x]; [| reflexivity].
  cbn [bind].
  destruct (truthy weekday_text).
  - destruct (item hours "weekday_text") as [days | x]; [| reflexivity]. cbn [bind].
    destruct (join nl days) as [lines | x]; [| reflexivity]. cbn [bind].
    destruct (get_attr hours "open_now") as [open_now | x]; [| reflexivity]. cbn [bind].
    now rewrite !append_assoc.
  - cbn [bind].
    destruct (get_attr hours "open_now") as [open_now | x]; [| reflexivity]. cbn [bind].
    reflexivity.
Qed.

(** C6. For a payload of status "OK" whose place has a non-empty list
    of reviews, what a get_place_details call returns is the first lines
    of the place, the part of its opening hours, the heading
    "Recent Reviews:" and one entry for each of the first 3 reviews, in
    order, and nothing else: the reviews after the third are not
    written.  The entry of a review shows the first 200 characters of
    its text followed by "..."; for a text that is a string of more than
    200 characters these are 200 characters. *)
Theorem get_place_details_reviews :
  forall (place_id : string) (e : env) (w : world)
         (data place : pydict) (reviews : list pyval) (out : string),
    http_get e (gateway_request (GOOGLE_MAPS_API_KEY e) "place/details/json"
                  (details_params place_id)) = JsonBody (PDict data) ->
    lookup data "status" = Some (PStr "OK") ->
    lookup data "result" = Some (PDict place) ->
    lookup place "reviews" = Some (PList reviews) ->
    reviews <> [] ->
    fst (get_place_details place_id e w) = Ok out ->
    exists hours lines,
      opening_hours_text place = Ok hours
      /\ out = details_head place ++ hours
               ++ nl ++ nl ++ "Recent Reviews:" ++ Str.cat lines
      /\ List.length lines = Nat.min 3 (List.length reviews)
      /\ (forall i review line,
             nth_error reviews i = Some review -> nth_error lines i = Some line ->
             review_line review line)
      /\ (forall i review line author_name rating text,
             nth_error reviews i = Some review -> nth_error lines i = Some line ->
             item review "author_name" = Ok author_name ->
             item review "rating" = Ok rating ->
             item review "text" = Ok (PStr text) ->
             (200 < String.length text)%nat ->
             line = review_entry author_name rating (PStr (Str.take 200 text))
             /\ String.length (Str.take 200 text) = 200%nat
             /\ String.prefix (Str.take 200 text) text = true).
Proof.
  intros place_id e w data place reviews out Hget Hstatus Hresult Hreviews Hne Hret.
  assert (Hplace : truthy (PDict place) = true)
    by exact (lookup_nonempty _ _ _ Hreviews).
  assert (Htruthy : truthy (PList reviews) = true)
    by (destruct reviews; [contradiction | reflexivity]).
  unfold get_place_details in Hret. revert Hret. run_tool.
  fold (details_params place_id). rewrite Hget. cbn [fst].
  rewrite (payload_passes _ _ _ _ _ Hstatus Hresult Hplace).
  unfold item at 1. rewrite Hresult. cbn [bind get_attr_or get_attr].
  fold (details_head place). rewrite opening_hours_appended.
  destruct (opening_hours_text place) as [hours | x]; [| discriminate].
  cbn [bind]. unfold get_or. rewrite Hreviews, Htruthy.
  unfold item at 1. rewrite Hreviews. cbn [bind slice_to iterate].
  rewrite (for_loop_appends
             (fun review =>
                author_name <- item review "author_name" ;;
                rating <- item review "rating" ;;
                text <- item review "text" ;;
                text <- slice_to text 200 ;;
                Ok (nl ++ "- " ++ str author_name
                    ++ " (" ++ str rating ++ " stars): " ++ str text ++ "..." ++ nl)))
    by (intros s review; appends).
  intros Hret. bind_inv Hret as lines Hlines. injection Hret as <-.
  apply for_each_ok, Forall2_nth in Hlines. destruct Hlines as (Hlen & Hnth).
  rewrite length_firstn in Hlen.
  assert (Hline : forall i review line,
             nth_error reviews i = Some review -> nth_error lines i = Some line ->
             review_line review line).
  { intros i review line Hreview Hline.
    assert (Hi : (i < 3)%nat).
    { assert (i < List.length lines)%nat by (apply nth_error_Some; congruence). lia. }
    specialize (Hnth i review line).
    rewrite nth_error_firstn_lt in Hnth by assumption.
    specialize (Hnth Hreview Hline). cbn beta in Hnth.
    bind_inv Hnth as author_name Hauthor. bind_inv Hnth as rating Hrating.
    bind_inv Hnth as text Htext. bind_inv Hnth as shown Hshown.
    injection Hnth as <-.
    exists author_name, rating, text, shown. repeat split; assumption. }
  exists hours, lines.
  split; [reflexivity|].
  split.
  { unfold details_head, get_attr_or, nl. cbn [append bind].
    repeat (rewrite !append_assoc; cbn [append]). reflexivity. }
  split; [assumption|]. split; [exact Hline|].
  intros i review line author_name rating text Hreview Hl Hauthor Hrating Htext Hlong.
  destruct (Hline i review line Hreview Hl)
    as (author_name' & rating' & text' & shown & Ha & Hr & Ht & Hs & ->).
  rewrite Hauthor in Ha. rewrite Hrating in Hr. rewrite Htext in Ht.
  injection Ha as <-. injection Hr as <-. injection Ht as <-.
  cbn in Hs. injection Hs as <-.
  split; [reflexivity|]. split; [apply take_length; lia | apply take_prefix].
Qed.

Lemma get_place_details_reviews_witness :
  exists out,
    fst (get_place_details "pid"
           (answering "K" (JsonBody (PDict sample_details))) initial_world) = Ok out
    /\ exists hours lines,
      opening_hours_text sample_place = Ok hours
      /\ out = details_head sample_place ++ hours
               ++ nl ++ nl ++ "Recent Reviews:" ++ Str.cat lines
      /\ List.length lines = Nat.min 3 (List.length sample_reviews)
      /\ (forall i review line,
             nth_error sample_reviews i = Some review -> nth_error lines i = Some line ->
             review_line review line)
      /\ (forall i review line author_name rating text,
             nth_error sample_reviews i = Some review -> nth_error lines i = Some line ->
             item review "author_name" = Ok author_name ->
             item review "rating" = Ok rating ->
             item review "text" = Ok (PStr text) ->
             (200 < String.length text)%nat ->
             line = review_entry author_name rating (PStr (Str.take 200 text))
             /\ String.length (Str.take 200 text) = 200%nat
             /\ String.prefix (Str.take 200 text) text = true).
Proof.
  eexists. split; [vm_compute; reflexivity|].
  apply (get_place_details_reviews "pid"
           (answering "K" (JsonBody (PDict sample_details))) initial_world
           sample_details sample_place sample_reviews).
  - reflexivity.
  - reflexivity.
  - reflexivity.
  - reflexivity.
  - discriminate.
  - vm_compute. reflexivity.
Defined.

(** ** Distance matrix *)

Lemma enumerate_In {A : Type} (start : nat) (l : list A) (i : nat) (x : A) :
  In (i, x) (enumerate start l) ->
  (start <= i)%nat /\ nth_error l (i - start) = Some x.
Proof.
  revert start. induction l as [| y l IH]; intros start; cbn; [contradiction|].
  intros [[= <- <-] | H].
  - split; [lia|]. now rewrite Nat.sub_diag.
  - apply IH in H. destruct H as (Hle & Hnth). split; [lia|].
    replace (i - start)%nat with (S (i - S start)) by lia. exact Hnth.
Qed.

(** A loop over numbered items whose pieces are made of a group of
    lines: the groups, one for each item. *)
Lemma for_each_groups {A G : Type} (g : nat -> result G) (h : A -> G -> string)
    (start : nat) (l : list A) (blocks : list string) :
  for_each (fun '(i, x) => lines <- g i ;; Ok (h x lines)) (enumerate start l) = Ok blocks ->
  exists groups,
    List.length groups = List.length l
    /\ blocks = map (fun '(x, lines) => h x lines) (combine l groups)
    /\ forall i lines, nth_error groups i = Some lines -> g (start + i)%nat = Ok lines.
Proof.
  revert start blocks. induction l as [| x l IH]; intros start blocks; cbn.
  - intros [= <-]. exists []. repeat split. intros [|i] lines; discriminate.
  - intros H. bind_inv H as block Hblock. bind_inv H as rest Hrest. injection H as <-.
    bind_inv Hblock as lines Hlines. injection Hblock as <-.
    destruct (IH _ _ Hrest) as (groups & Hlen & -> & Hg).
    exists (lines :: groups). cbn. split; [now rewrite Hlen|]. split; [reflexivity|].
    intros [|i] lines'; cbn.
    + intros [= <-]. now rewrite Nat.add_0_r.
    + intros Hi. rewrite Nat.add_succ_r. now apply Hg.
Qed.

Section DistanceMatrix.

Variables (data : pydict) (os ds : list pyval).
Hypothesis Horigins : lookup data "origin_addresses" = Some (PList os).
Hypothesis Hdestinations : lookup data "destination_addresses" = Some (PList ds).

Lemma matrix_loops (s : string) :
  for_loop (fun results '(i, origin) =>
      let results := results ++ "From: " ++ str origin ++ nl in
      destination_addresses <- item (PDict data) "destination_addresses" ;;
      destination_addresses <- iterate destination_addresses ;;
      results <-
        for_loop (fun results '(j, destination) =>
            rows <- item (PDict data) "rows" ;;
            row <- index rows i ;;
            elements <- item row "elements" ;;
            element <- index elements j ;;
            status <- item element "status" ;;
            if eq_str status "OK" then
              distance <- item element "distance" ;;
              distance <- item distance "text" ;;
              duration <- item element "duration" ;;
              duration <- item duration "text" ;;
              Ok (results ++ "  To " ++ str destination ++ ": " ++ str distance
                  ++ " (" ++ str duration ++ ")" ++ nl)
            else
              Ok (results ++ "  To " ++ str destination ++ ": Route not available" ++ nl))
          (enumerate 0 destination_addresses) results ;;
      Ok (results ++ nl))
    (enumerate 0 os) s
  = (blocks <- for_each (origin_block data ds) (enumerate 0 os) ;; Ok (s ++ Str.cat blocks)).
Proof.
  apply for_loop_appends. intros r [i origin]. cbv zeta.
  unfold item at 1. rewrite Hdestinations. cbn [bind iterate].
  rewrite (for_loop_appends (pair_line data i))
    by (intros r' [j destination]; unfold pair_line; appends).
  unfold origin_block, from_block.
  destruct (for_each (pair_line data i) (enumerate 0 ds)) as [lines | x]; cbn [bind];
    [| reflexivity].
  now rewrite !append_assoc.
Qed.

Lemma pair_line_ok (i j : nat) (destination : pyval) (line : string) :
  pair_line data i (j, destination) = Ok line ->
  exists element, matrix_element data i j = Ok element /\ to_line destination element line.
Proof.
  unfold pair_line, matrix_element. intros H.
  bind_inv H as rows Hrows. bind_inv H as row Hrow.
  bind_inv H as elements Helements. bind_inv H as element Helement.
  bind_inv H as status Hstatus.
  rewrite Hrows. cbn [bind]. rewrite Hrow. cbn [bind]. rewrite Helements. cbn [bind].
  exists element. split; [assumption|].
  exists status. split; [assumption|].
  destruct (eq_str status "OK").
  - bind_inv H as d0 Hd0. bind_inv H as d Hd.
    bind_inv H as t0 Ht0. bind_inv H as t Ht. injection H as <-.
    exists d, t. unfold text_of. rewrite Hd0, Ht0. now cbn [bind].
  - now injection H as <-.
Qed.

Lemma pair_line_returns (i j : nat) (destination element : pyval) :
  matrix_element data i j = Ok element -> element_renders element = true ->
  returns (pair_line data i (j, destination)) = true.
Proof.
  unfold pair_line, matrix_element, element_renders, text_of. intros H Hr.
  bind_inv H as rows Hrows. bind_inv H as row Hrow. bind_inv H as elements Helements.
  rewrite Hrows. cbn [bind]. rewrite Hrow. cbn [bind]. rewrite Helements. cbn [bind].
  rewrite H. cbn [bind].
  destruct (item element "status") as [status | x]; [|discriminate]. cbn [bind].
  destruct (eq_str status "OK"); [|reflexivity].
  destruct (item element "distance") as [d0 | x]; [|discriminate]. cbn [bind] in *.
  destruct (item d0 "text") as [d | x]; [|discriminate]. cbn [bind] in *.
  destruct (item element "duration") as [t0 | x]; [|discriminate]. cbn [bind] in *.
  destruct (item t0 "text") as [t | x]; [|discriminate]. reflexivity.
Qed.

End DistanceMatrix.

(** C7. For a payload of status "OK" with rows, a list of origin
    addresses and a list of destination addresses, a
    calculate_distance_matrix call that returns has written, after the
    title, one block for each origin: its "From:" line, one "To" line
    for each destination and an empty line.  The line of a pair whose
    element has a status other than "OK" reads "Route not available";
    nothing but the status of such an element is read.  The call returns
    whenever every pair has an element with a status, and with the texts
    of distance and duration when the status is "OK". *)
Theorem calculate_distance_matrix_lines :
  forall (origins destinations : list string) (mode : string) (e : env) (w : world)
         (data : pydict) (rows : pyval) (os ds : list pyval),
    In mode travel_modes ->
    http_get e (gateway_request (GOOGLE_MAPS_API_KEY e) "distancematrix/json"
                  (matrix_params origins destinations mode)) = JsonBody (PDict data) ->
    lookup data "status" = Some (PStr "OK") ->
    lookup data "rows" = Some rows -> truthy rows = true ->
    lookup data "origin_addresses" = Some (PList os) ->
    lookup data "destination_addresses" = Some (PList ds) ->
    (forall out,
        fst (calculate_distance_matrix origins destinations mode e w) = Ok out ->
        exists groups : list (list string),
          out = matrix_title mode
                ++ Str.cat (map (fun '(origin, lines) => from_block origin lines)
                              (combine os groups))
          /\ List.length groups = List.length os
          /\ forall i lines,
               nth_error groups i = Some lines ->
               List.length lines = List.length ds
               /\ forall j destination line,
                    nth_error ds j = Some destination ->
                    nth_error lines j = Some line ->
                    exists element,
                      matrix_element data i j = Ok element
                      /\ to_line destination element line)
    /\ ((forall i j, (i < List.length os)%nat -> (j < List.length ds)%nat ->
           exists element,
             matrix_element data i j = Ok element /\ element_renders element = true) ->
        returns (fst (calculate_distance_matrix origins destinations mode e w)) = true).
Proof.
  intros origins destinations mode e w data rows os ds
         Hmode Hget Hstatus Hrows Htruthy Horigins Hdestinations.
  apply mode_in_In in Hmode.
  assert (Hshape : fst (calculate_distance_matrix origins destinations mode e w)
                   = (blocks <- for_each (origin_block data ds) (enumerate 0 os) ;;
                      Ok (matrix_title mode ++ Str.cat blocks))).
  { unfold calculate_distance_matrix. rewrite Hmode. cbn [negb].
    run_tool. fold (matrix_params origins destinations mode).
    rewrite Hget. cbn [fst].
    rewrite (payload_passes _ _ _ _ _ Hstatus Hrows Htruthy).
    unfold item at 1. rewrite Horigins. cbn [bind iterate].
    now rewrite (matrix_loops _ os _ Hdestinations). }
  rewrite Hshape. clear Hshape.
  split.
  - intros out Hret. bind_inv Hret as blocks Hblocks. injection Hret as <-.
    apply for_each_groups in Hblocks.
    destruct Hblocks as (groups & Hlen & -> & Hgroups).
    exists groups. split; [reflexivity|]. split; [assumption|].
    intros i lines Hlines. specialize (Hgroups i lines Hlines). cbn in Hgroups.
    apply for_each_ok, Forall2_nth in Hgroups. destruct Hgroups as (Hl & Hnth).
    rewrite enumerate_length in Hl. split; [assumption|].
    intros j destination line Hd Hline.
    specialize (Hnth j (j, destination) line).
    rewrite enumerate_nth, Hd in Hnth. specialize (Hnth eq_refl Hline).
    now apply pair_line_ok.
  - intros Hall.
    destruct (for_each_returns (origin_block data ds) (enumerate 0 os)) as (blocks & ->);
      [| reflexivity].
    intros [i origin] Hin. apply enumerate_In in Hin. destruct Hin as (_ & Hi).
    rewrite Nat.sub_0_r in Hi.
    assert (Hlt : (i < List.length os)%nat) by (apply nth_error_Some; congruence).
    unfold origin_block.
    destruct (for_each_returns (pair_line data i) (enumerate 0 ds)) as (lines & ->);
      [| reflexivity].
    intros [j destination] Hin. apply enumerate_In in Hin. destruct Hin as (_ & Hj).
    rewrite Nat.sub_0_r in Hj.
    assert (Hjlt : (j < List.length ds)%nat) by (apply nth_error_Some; congruence).
    destruct (Hall i j Hlt Hjlt) as (element & Helement & Hrenders).
    now apply pair_line_returns with (element := element).
Qed.

Lemma calculate_distance_matrix_lines_witness :
  (forall out,
      fst (calculate_distance_matrix ["A"; "B"] ["C"] "walking"
             (answering "K" (JsonBody (PDict sample_matrix))) initial_world) = Ok out ->
      exists groups : list (list string),
        out = matrix_title "walking"
              ++ Str.cat (map (fun '(origin, lines) => from_block origin lines)
                            (combine [PStr "A st"; PStr "B st"] groups))
        /\ List.length groups = 2%nat
        /\ forall i lines,
             nth_error groups i = Some lines ->
             List.length lines = 1%nat
             /\ forall j destination line,
                  nth_error [PStr "C st"] j = Some destination ->
                  nth_error lines j = Some line ->
                  exists element,
                    matrix_element sample_matrix i j = Ok element
                    /\ to_line destination element line)
  /\ returns (fst (calculate_distance_matrix ["A"; "B"] ["C"] "walking"
                     (answering "K" (JsonBody (PDict sample_matrix))) initial_world))
     = true.
Proof.
  destruct (calculate_distance_matrix_lines ["A"; "B"] ["C"] "walking"
              (answering "K" (JsonBody (PDict sample_matrix))) initial_world
              sample_matrix
              (PList
                 [PDict [("elements", PList [PDict [("status", PStr "OK");
                                                    ("distance", measure "1 km");
                                                    ("duration", measure "2 mins")]])];
                  PDict [("elements", PList [PDict [("status", PStr "ZERO_RESULTS")]])]])
              [PStr "A st"; PStr "B st"] [PStr "C st"])
    as (Hlines & Hreturns).
  - cbn. auto.
  - reflexivity.
  - reflexivity.
  - reflexivity.
  - reflexivity.
  - reflexivity.
  - reflexivity.
  - split; [exact Hlines|]. vm_compute. reflexivity.
Defined.

(** ** Elevation *)

Lemma string_of_uint_digits (d : Decimal.uint) :
  all_digits (NilEmpty.string_of_uint d) = true.
Proof. induction d; cbn; trivial. Qed.

Lemma of_Z_digits (z : Z) :
  (0 <= z)%Z -> Str.of_Z z <> "" /\ all_digits (Str.of_Z z) = true.
Proof.
  intros Hz. unfold Str.of_Z.
  destruct z as [| p | p]; [cbn; split; [discriminate | reflexivity] | | lia].
  cbn [Z.to_int NilZero.string_of_int NilZero.string_of_uint].
  pose proof (string_of_uint_digits (Pos.to_uint p)) as Hd.
  destruct (Pos.to_uint p); cbn in *; (split; [discriminate | assumption]).
Qed.

Lemma pad2_two_digits (r : Z) :
  (0 <= r < 100)%Z ->
  exists d1 d2, PyFloat.pad2 r = String d1 (String d2 "")
                /\ is_digit d1 = true /\ is_digit d2 = true.
Proof.
  intros Hr.
  assert (Hall : forallb (fun n => pad2_ok (Z.of_nat n)) (seq 0 100) = true)
    by (vm_compute; reflexivity).
  rewrite forallb_forall in Hall.
  specialize (Hall (Z.to_nat r)). rewrite Z2Nat.id in Hall by lia.
  assert (Hin : In (Z.to_nat r) (seq 0 100)) by (apply in_seq; lia).
  specialize (Hall Hin). unfold pad2_ok in Hall.
  destruct (PyFloat.pad2 r) as [| d1 [| d2 [| ? ?]]]; try discriminate.
  apply andb_true_iff in Hall. now exists d1, d2.
Qed.

Lemma round_half_even_nonneg (n d : Z) :
  (0 <= n)%Z -> (0 < d)%Z -> (0 <= PyFloat.round_half_even n d)%Z.
Proof.
  intros Hn Hd. unfold PyFloat.round_half_even.
  assert (0 <= n / d)%Z by (apply Z.div_pos; lia).
  destruct (2 * (n mod d) ?= d)%Z; [destruct (Z.even (n / d)) | |]; lia.
Qed.

Lemma fixed2_two_decimals (s : bool) (m : positive) (e : Z) :
  two_decimals (PyFloat.sign s ++ PyFloat.fixed2 (Zpos m) e).
Proof.
  unfold PyFloat.fixed2.
  set (q := PyFloat.round_half_even _ _).
  assert (Hq : (0 <= q)%Z).
  { apply round_half_even_nonneg.
    - apply Z.mul_nonneg_nonneg; [lia | apply Z.pow_nonneg; lia].
    - apply Z.pow_pos_nonneg; lia. }
  destruct (of_Z_digits (q / 100)) as (Hne & Hdigits);
    [apply Z.div_pos; lia|].
  destruct (pad2_two_digits (q mod 100)) as (d1 & d2 & -> & Hd1 & Hd2);
    [apply Z.mod_pos_bound; lia|].
  exists (PyFloat.sign s), (Str.of_Z (q / 100)), d1, d2.
  repeat split; try assumption.
  destruct s; [now right | now left].
Qed.

Lemma finite_two_decimals (f : float) :
  PyFloat.is_finite f = true -> two_decimals (PyFloat.format_2f f).
Proof.
  unfold PyFloat.is_finite, PyFloat.format_2f.
  destruct (Prim2SF f) as [s | s | | s m e]; try discriminate; intros _.
  - exists (PyFloat.sign s), "0", "0"%char, "0"%char.
    repeat split; try reflexivity; try discriminate.
    destruct s; [now right | now left].
  - apply fixed2_two_decimals.
Qed.

Lemma contains_point (a b : string) : Str.contains "." (a ++ "." ++ b) = true.
Proof.
  induction a as [| c a IH]; [reflexivity|].
  cbn [append Str.contains] in IH |- *. rewrite IH. apply orb_true_r.
Qed.

Lemma two_decimals_point (s : string) : two_decimals s -> Str.contains "." s = true.
Proof.
  intros (sgn & whole & d1 & d2 & -> & _).
  rewrite <- append_assoc. apply contains_point.
Qed.

Lemma format_2f_ok (v : pyval) (s : string) :
  format_2f v = Ok s -> exists f, as_float v = Ok f /\ s = PyFloat.format_2f f.
Proof.
  destruct v; cbn; try discriminate.
  - intros [= <-]. now eexists.
  - destruct (PyFloat.of_int z); cbn; [|discriminate]. intros [= <-]. now eexists.
  - intros [= <-]. now eexists.
Qed.

Lemma mul_float_ok (v : pyval) (c : float) (p : pyval) :
  mul_float v c = Ok p -> exists f, as_float v = Ok f /\ p = PFloat (f * c)%float.
Proof.
  unfold mul_float. intros H. bind_inv H as f Hf. injection H as <-. now exists f.
Qed.

(** C8, as the code has it.  For a payload of status "OK" with a
    non-empty list of records, a get_elevation call that returns has
    written, after the title, the lines of every record: its location,
    its elevation with the format [.2f] in meters and, multiplied by
    3.28084, in feet, and its resolution with the same format.  The
    format gives exactly two digits after the point to every finite number
    (a number that is not finite is written inf or nan);
    100 meters are written "100.00 meters (328.08 feet)". *)
Theorem get_elevation_report :
  forall (locations : list (list (string * float))) (e : env) (w : world)
         (req : request) (data : pydict) (records : list pyval) (out : string),
    sent (snd (get_elevation locations e w)) = (sent w ++ [req])%list ->
    http_get e req = JsonBody (PDict data) ->
    lookup data "status" = Some (PStr "OK") ->
    lookup data "results" = Some (PList records) ->
    records <> [] ->
    fst (get_elevation locations e w) = Ok out ->
    (exists chunks,
        out = "Elevation Data:" ++ nl ++ nl ++ Str.cat chunks
        /\ List.length chunks = List.length records
        /\ forall i record chunk,
             nth_error records i = Some record -> nth_error chunks i = Some chunk ->
             record_chunk i record chunk)
    /\ (forall f, PyFloat.is_finite f = true -> two_decimals (PyFloat.format_2f f))
    /\ elevation_chunk 0 (PFloat 0) (PFloat 0) 100 1
       = "Location 1: 0.0, 0.0" ++ nl
         ++ "Elevation: 100.00 meters (328.08 feet)" ++ nl
         ++ "Resolution: 1.00 meters" ++ nl ++ nl.
Proof.
  intros locations e w req data records out Hsent Hget Hstatus Hresults Hne Hret.
  split; [| split; [exact finite_two_decimals | vm_compute; reflexivity]].
  assert (Htruthy : truthy (PList records) = true)
    by (destruct records; [contradiction | reflexivity]).
  unfold get_elevation in Hsent, Hret.
  destruct (for_each _ locations) as [location_strings | x].
  2:{ cbn in Hsent. now apply not_extended in Hsent. }
  unfold mbind at 1, evaluate at 1 in Hsent. unfold mbind at 1, evaluate at 1 in Hret.
  revert Hsent Hret. run_tool. cbn [fst snd]. intros Hs.
  rewrite Hsent in Hs. apply app_inv_head in Hs. injection Hs as <-.
  rewrite Hget.
  rewrite (payload_passes _ _ _ _ _ Hstatus Hresults Htruthy).
  unfold item at 1. rewrite Hresults. cbn [bind iterate].
  rewrite (for_loop_appends
             (fun '(i, result) =>
                location <- item result "location" ;;
                lat <- item location "lat" ;;
                lng <- item location "lng" ;;
                elevation <- item result "elevation" ;;
                meters <- format_2f elevation ;;
                elevation <- item result "elevation" ;;
                in_feet <- mul_float elevation feet_per_meter ;;
                in_feet <- format_2f in_feet ;;
                resolution <- item result "resolution" ;;
                resolution <- format_2f resolution ;;
                Ok ("Location " ++ str_of_nat (i + 1) ++ ": "
                    ++ str lat ++ ", " ++ str lng ++ nl
                    ++ "Elevation: " ++ meters ++ " meters ("
                    ++ in_feet ++ " feet)" ++ nl
                    ++ "Resolution: " ++ resolution ++ " meters" ++ nl ++ nl)))
    by (intros s [i result]; appends).
  intros Hret. bind_inv Hret as chunks Hchunks. injection Hret as <-.
  apply for_each_ok, Forall2_nth in Hchunks. destruct Hchunks as (Hlen & Hnth).
  rewrite enumerate_length in Hlen.
  exists chunks. split; [reflexivity|]. split; [assumption|].
  intros i record chunk Hrecord Hchunk.
  specialize (Hnth i (i, record) chunk).
  rewrite enumerate_nth, Hrecord in Hnth. specialize (Hnth eq_refl Hchunk).
  cbn beta iota in Hnth.
  bind_inv Hnth as location Hlocation. bind_inv Hnth as lat Hlat.
  bind_inv Hnth as lng Hlng. bind_inv Hnth as elevation Helevation.
  bind_inv Hnth as meters Hmeters. bind_inv Hnth as elevation' Helevation'.
  bind_inv Hnth as product Hproduct. bind_inv Hnth as in_feet Hfeet.
  bind_inv Hnth as resolution Hresolution. bind_inv Hnth as shown Hshown.
  injection Hnth as <-.
  rewrite Helevation in Helevation'. injection Helevation' as <-.
  apply format_2f_ok in Hmeters. destruct Hmeters as (m & Hm & ->).
  apply mul_float_ok in Hproduct. destruct Hproduct as (m' & Hm' & ->).
  rewrite Hm in Hm'. injection Hm' as <-.
  cbn in Hfeet. injection Hfeet as <-.
  apply format_2f_ok in Hshown. destruct Hshown as (r & Hr & ->).
  exists location, lat, lng, m, r. unfold number_of.
  rewrite Helevation, Hresolution. cbn [bind].
  repeat split; assumption.
Qed.

Lemma get_elevation_report_witness :
  exists out,
    fst (get_elevation [origin_location]
           (answering "K" (JsonBody (PDict (elevation_payload (PFloat 100)))))
           initial_world) = Ok out
    /\ (exists chunks,
           out = "Elevation Data:" ++ nl ++ nl ++ Str.cat chunks
           /\ List.length chunks = 1%nat
           /\ forall i record chunk,
                nth_error [elevation_record (PFloat 100)] i = Some record ->
                nth_error chunks i = Some chunk ->
                record_chunk i record chunk)
    /\ (forall f, PyFloat.is_finite f = true -> two_decimals (PyFloat.format_2f f))
    /\ elevation_chunk 0 (PFloat 0) (PFloat 0) 100 1
       = "Location 1: 0.0, 0.0" ++ nl
         ++ "Elevation: 100.00 meters (328.08 feet)" ++ nl
         ++ "Resolution: 1.00 meters" ++ nl ++ nl.
Proof.
  eexists. split; [vm_compute; reflexivity|].
  apply (get_elevation_report [origin_location]
           (answering "K" (JsonBody (PDict (elevation_payload (PFloat 100)))))
           initial_world (elevation_request "K")
           (elevation_payload (PFloat 100)) [elevation_record (PFloat 100)]).
  - vm_compute. reflexivity.
  - reflexivity.
  - reflexivity.
  - reflexivity.
  - discriminate.
  - vm_compute. reflexivity.
Defined.

(** C8 as the specification states it does not hold for every record:
    an elevation that is not a finite number (the JSON number 1e999 is
    read as the infinite float) is written "inf", without digits after a
    point, and so is the elevation in feet of a finite elevation whose
    product with 3.28084 is beyond the largest float. *)
Lemma get_elevation_infinite_elevation :
  fst (get_elevation [origin_location]
         (answering "K" (JsonBody (PDict (elevation_payload (PFloat infinity)))))
         initial_world)
  = Ok ("Elevation Data:" ++ nl ++ nl
        ++ "Location 1: 0.0, 0.0" ++ nl
        ++ "Elevation: inf meters (inf feet)" ++ nl
        ++ "Resolution: 1.00 meters" ++ nl ++ nl)
  /\ PyFloat.format_2f infinity = "inf"
  /\ PyFloat.format_2f (1e308 * feet_per_meter)%float = "inf"
  /\ ~ two_decimals "inf".
Proof.
  split; [vm_compute; reflexivity|]. split; [vm_compute; reflexivity|].
  split; [vm_compute; reflexivity|].
  intros H. apply two_decimals_point in H. discriminate H.
Qed.

(** ** The credential *)




(** ** Payloads that are rendered *)

























(** * Further properties of the gateway and of the tools *)

(** ** The gateway *)

Lemma starts_with_append (p s : string) : Str.starts_with p (p ++ s) = true.
Proof.
  induction p as [| c p IH]; [reflexivity|].
  cbn. now rewrite Ascii.eqb_refl, IH.
Qed.

Lemma payload_quiet (o : http_outcome) (d : pydict) :
  gateway_payload o = Some d -> o = JsonBody (PDict d) /\ gateway_log o = [].
Proof.
  destruct o as [x | x | x | data]; cbn; try discriminate.
  destruct data; cbn; try discriminate.
  destruct (eq_str (get d0 "status") "OK"); [| discriminate].
  intros [= <-]. now split.
Qed.

Lemma failure_one_line (o : http_outcome) :
  upstream_failure o = true -> exists line, gateway_log o = [line].
Proof.
  destruct o as [x | x | x | data]; cbn; try (intros _; now eexists).
  destruct data; cbn; try (intros _; now eexists).
  destruct (eq_str (get d "status") "OK"); [discriminate | intros _; now eexists].
Qed.

(** X1. A tool call sends no request or exactly one: there is no
    retry.  The request goes to a path under the base URL, with the
    timeout of 30 seconds and with the credential under "key". *)
Theorem invoke_sends_at_most_one_request :
  forall (c : call) (e : env) (w : world),
    sent (snd (invoke c e w)) = sent w
    \/ exists req,
         sent (snd (invoke c e w)) = (sent w ++ [req])%list
         /\ Str.starts_with (GOOGLE_MAPS_BASE_URL ++ "/") (req_url req) = true
         /\ req_timeout req = 30%float
         /\ lookup (req_params req) "key" = Some (PStr (GOOGLE_MAPS_API_KEY e)).
Proof.
  intros c e w.
  destruct (invoke_shape c) as [[r Hr] | (d & endpoint & render & Hrun)].
  - left. now rewrite Hr.
  - right. destruct (Hrun e w) as (w' & -> & _ & Hsent). cbn [snd].
    eexists. split; [exact Hsent|]. cbn [gateway_request req_url req_timeout req_params].
    split; [| split; [reflexivity | apply lookup_set_same]].
    rewrite <- append_assoc. apply starts_with_append.
Qed.

(** X2. For each outcome of the three calls inside the [try] of the
    gateway: it hands the payload over as it came, and prints nothing,
    when the body is a dict whose status is "OK"; in every other case
    (network, HTTP status, body that is not JSON, JSON that is not a
    dict, other status) it returns the absent result and calls [print]
    exactly once.  The text printed may hold a line feed, as the message
    of a status error of httpx does. *)
Theorem make_google_request_outcomes :
  forall (endpoint : string) (params : nat) (e : env) (w : world),
    let o := http_get e (gateway_request (GOOGLE_MAPS_API_KEY e) endpoint (heap w params)) in
    let run := make_google_request endpoint params e w in
    (forall d, o = JsonBody (PDict d) -> lookup d "status" = Some (PStr "OK") ->
               fst run = Ok (Some d) /\ stdout (snd run) = stdout w)
    /\ (upstream_failure o = true ->
        fst run = Ok None /\ exists text, stdout (snd run) = (stdout w ++ [text])%list).
Proof.
  intros endpoint params e w. cbv zeta.
  rewrite make_google_request_run. cbn [fst snd stdout].
  split.
  - intros d -> Hstatus. cbn. unfold get, get_or. rewrite Hstatus. cbn.
    split; [reflexivity | apply app_nil_r].
  - intros Hf. rewrite (failure_payload _ Hf).
    destruct (failure_one_line _ Hf) as (text & ->). split; [reflexivity | now eexists].
Qed.

Lemma make_google_request_outcomes_witness :
  (fst (make_google_request "geocode/json" 0
          (answering "K" (JsonBody (PDict scenario_payload))) initial_world)
   = Ok (Some scenario_payload)
   /\ stdout (snd (make_google_request "geocode/json" 0
                     (answering "K" (JsonBody (PDict scenario_payload))) initial_world))
      = stdout initial_world)
  /\ (fst (make_google_request "geocode/json" 0
             (answering "K" (JsonBody (PList []))) initial_world) = Ok None
      /\ exists text,
           stdout (snd (make_google_request "geocode/json" 0
                          (answering "K" (JsonBody (PList []))) initial_world))
           = (stdout initial_world ++ [text])%list).
Proof.
  split.
  - apply (proj1 (make_google_request_outcomes "geocode/json" 0
                    (answering "K" (JsonBody (PDict scenario_payload))) initial_world)
             scenario_payload); reflexivity.
  - apply (proj2 (make_google_request_outcomes "geocode/json" 0
                    (answering "K" (JsonBody (PList []))) initial_world)).
    reflexivity.
Defined.

(** X3. For a payload whose status is not "OK" the line printed is
    "Google Maps API error: " followed by the payload's error_message
    when it has one, by its status otherwise, and by None when it has
    neither. *)
Theorem make_google_request_error_line :
  forall (endpoint : string) (params : nat) (e : env) (w : world) (d : pydict),
    http_get e (gateway_request (GOOGLE_MAPS_API_KEY e) endpoint (heap w params))
    = JsonBody (PDict d) ->
    eq_str (get d "status") "OK" = false ->
    exists line,
      stdout (snd (make_google_request endpoint params e w)) = (stdout w ++ [line])%list
      /\ (forall m, lookup d "error_message" = Some m ->
                    line = "Google Maps API error: " ++ str m)
      /\ (forall s, lookup d "error_message" = None -> lookup d "status" = Some s ->
                    line = "Google Maps API error: " ++ str s)
      /\ (lookup d "error_message" = None -> lookup d "status" = None ->
          line = "Google Maps API error: None").
Proof.
  intros endpoint params e w d Hget Hstatus.
  rewrite make_google_request_run. cbn [snd stdout]. rewrite Hget.
  cbn [gateway_log]. rewrite Hstatus.
  eexists. split; [reflexivity|]. unfold get_or, get, get_or.
  repeat split.
  - intros m ->. reflexivity.
  - intros s -> ->. reflexivity.
  - intros -> ->. reflexivity.
Qed.

Lemma make_google_request_error_line_witness :
  exists line,
    stdout (snd (make_google_request "geocode/json" 0
                   (answering "K" (JsonBody (PDict denied))) initial_world))
    = (stdout initial_world ++ [line])%list
    /\ (forall m, lookup denied "error_message" = Some m ->
                  line = "Google Maps API error: " ++ str m)
    /\ (forall s, lookup denied "error_message" = None -> lookup denied "status" = Some s ->
                  line = "Google Maps API error: " ++ str s)
    /\ (lookup denied "error_message" = None -> lookup denied "status" = None ->
        line = "Google Maps API error: None").
Proof.
  apply (make_google_request_error_line "geocode/json" 0
           (answering "K" (JsonBody (PDict denied))) initial_world denied);
    reflexivity.
Defined.

Lemma set_absent (d : pydict) (k : string) (v : pyval) :
  lookup d k = None -> set d k v = (d ++ [(k, v)])%list.
Proof.
  induction d as [| [k' v'] d IH]; cbn; [reflexivity|].
  destruct (k' =? k); [discriminate|]. intros H. now rewrite IH.
Qed.

Lemma set_present (d : pydict) (k : string) (v : pyval) :
  lookup d k <> None -> map fst (set d k v) = map fst d.
Proof.
  induction d as [| [k' v'] d IH]; cbn; [congruence|].
  destruct (k' =? k); cbn; [reflexivity|]. intros H. now rewrite IH.
Qed.

(** X4. The mapping the gateway sends is the caller's with the
    credential added at its end; when the caller's mapping already has an
    entry under "key", the credential takes its place and the keys, and
    their order, stay as they were. *)
Theorem make_google_request_overwrites_key :
  forall (endpoint : string) (params : nat) (e : env) (w : world),
    exists req,
      sent (snd (make_google_request endpoint params e w)) = (sent w ++ [req])%list
      /\ req_url req = GOOGLE_MAPS_BASE_URL ++ "/" ++ endpoint
      /\ (lookup (heap w params) "key" = None ->
          req_params req
          = (heap w params ++ [("key", PStr (GOOGLE_MAPS_API_KEY e))])%list)
      /\ (lookup (heap w params) "key" <> None ->
          map fst (req_params req) = map fst (heap w params)
          /\ lookup (req_params req) "key" = Some (PStr (GOOGLE_MAPS_API_KEY e))).
Proof.
  intros endpoint params e w. rewrite make_google_request_run. cbn [snd sent].
  eexists. split; [reflexivity|]. cbn [gateway_request req_url req_params].
  split; [reflexivity|]. split.
  - apply set_absent.
  - intros H. split; [now apply set_present | apply lookup_set_same].
Qed.

Lemma make_google_request_overwrites_key_witness :
  exists req,
    sent (snd (make_google_request "geocode/json" 0
                 (answering "K" (BadStatus "503")) keyed_world)) = [req]
    /\ map fst (req_params req) = ["key"; "address"]
    /\ lookup (req_params req) "key" = Some (PStr "K").
Proof.
  destruct (make_google_request_overwrites_key "geocode/json" 0
              (answering "K" (BadStatus "503")) keyed_world)
    as (req & Hsent & _ & _ & Hpresent).
  exists req. split; [exact Hsent|]. apply Hpresent. discriminate.
Defined.

(** ** What the tools send *)


(** X5. Every tool sends the request of its own endpoint with the
    parameters made of its arguments, and nothing when it stops before
    the gateway (a travel mode that is not accepted, a location without
    "lat" or "lng").  The lists of calculate_distance_matrix and of
    get_elevation are joined with "|". *)
Theorem invoke_request :
  forall (c : call) (e : env) (w : world),
    sent (snd (invoke c e w))
    = (sent w ++ match arguments_of c with
                 | Some d => [gateway_request (GOOGLE_MAPS_API_KEY e) (endpoint_of c) d]
                 | None => []
                 end)%list.
Proof.
  intros [address | latitude longitude | query location radius | place_id
         | origin destination mode | origins destinations mode | locations] e w;
    cbn [invoke arguments_of endpoint_of].
  - unfold geocode_address. run_tool. exact Hsent.
  - unfold reverse_geocode. run_tool. exact Hsent.
  - unfold search_places.
    match goal with
    | |- context [evaluate (unless_absent _ _ _ ?r)] =>
        destruct (search_places_run query location radius
                    (fun data => unless_absent data "results"
                                   "No places found for the search query." r) e w)
          as (w' & -> & _ & Hsent)
    end.
    exact Hsent.
  - unfold get_place_details. run_tool. exact Hsent.
  - unfold get_directions. destruct (mode_in mode travel_modes); cbn [negb].
    + run_tool. exact Hsent.
    + cbn. now rewrite app_nil_r.
  - unfold calculate_distance_matrix. destruct (mode_in mode travel_modes); cbn [negb].
    + run_tool. exact Hsent.
    + cbn. now rewrite app_nil_r.
  - unfold get_elevation.
    pose proof (location_strings_for_each locations) as H.
    destruct (location_strings locations) as [ss |]; rewrite H.
    + rewrite mbind_evaluate_ok. run_tool. exact Hsent.
    + cbn. now rewrite app_nil_r.
Qed.

(** X6. search_places sends "location" only for a location that is given
    and not empty, and "radius" only for a radius that is given and not
    0, as the decimal text of the number; "query" is always sent. *)
Theorem search_places_optional_parameters :
  forall (query : string) (location : option string) (radius : option Z)
         (e : env) (w : world),
    exists req,
      sent (snd (search_places query location radius e w)) = (sent w ++ [req])%list
      /\ lookup (req_params req) "query" = Some (PStr query)
      /\ lookup (req_params req) "location"
         = match location with
           | Some l => if l =? "" then None else Some (PStr l)
           | None => None
           end
      /\ lookup (req_params req) "radius"
         = match radius with
           | Some r => if (r =? 0)%Z then None else Some (PStr (Str.of_Z r))
           | None => None
           end.
Proof.
  intros query location radius e w. unfold search_places.
  match goal with
  | |- context [evaluate (unless_absent _ _ _ ?r)] =>
      destruct (search_places_run query location radius
                  (fun data => unless_absent data "results"
                                 "No places found for the search query." r) e w)
        as (w' & -> & _ & Hsent)
  end.
  eexists. split; [exact Hsent|]. cbn [gateway_request req_params].
  rewrite !lookup_set_other by discriminate.
  unfold search_params.
  destruct location as [l |]; [destruct (l =? "") |];
    (destruct radius as [r |]; [destruct (r =? 0)%Z |]); cbn; repeat split.
Qed.

(** X7. get_elevation raises KeyError, and sends nothing, when one of the
    locations has no "lat" or no "lng". *)
Theorem get_elevation_missing_coordinate :
  forall (locations : list (list (string * float))) (loc : list (string * float))
         (e : env) (w : world),
    In loc locations ->
    coordinate loc "lat" = Raise KeyError \/ coordinate loc "lng" = Raise KeyError ->
    get_elevation locations e w = (Raise KeyError, w).
Proof.
  intros locations loc e w Hin Hmissing.
  assert (Hnone : location_strings locations = None).
  { induction locations as [| l rest IH]; [contradiction|]. cbn.
    destruct Hin as [-> | Hin].
    - unfold location_string.
      destruct Hmissing as [-> | Hlng]; [reflexivity|]. rewrite Hlng.
      now destruct (coordinate loc "lat").
    - rewrite (IH Hin). now destruct (location_string l). }
  unfold get_elevation.
  pose proof (location_strings_for_each locations) as H. rewrite Hnone in H.
  now rewrite H.
Qed.

Lemma get_elevation_missing_coordinate_witness :
  get_elevation [origin_location; [("lat", 1%float)]]
    (answering "K" (BadStatus "503")) initial_world
  = (Raise KeyError, initial_world).
Proof.
  apply (get_elevation_missing_coordinate [origin_location; [("lat", 1%float)]]
           [("lat", 1%float)]).
  - right. now left.
  - right. reflexivity.
Defined.

(** ** What the tools read and write *)

(** X8. The two geocoders read the first result alone: two payloads of
    status "OK" with the same first result give the same report, whatever
    results follow it. *)
Theorem geocoders_read_first_result :
  forall (e1 e2 : env) (w : world) (data1 data2 : pydict) (first : pyval)
         (rest1 rest2 : list pyval),
    (forall req, http_get e1 req = JsonBody (PDict data1)) ->
    (forall req, http_get e2 req = JsonBody (PDict data2)) ->
    lookup data1 "status" = Some (PStr "OK") ->
    lookup data2 "status" = Some (PStr "OK") ->
    lookup data1 "results" = Some (PList (first :: rest1)) ->
    lookup data2 "results" = Some (PList (first :: rest2)) ->
    (forall address,
        fst (geocode_address address e1 w) = fst (geocode_address address e2 w))
    /\ (forall latitude longitude,
        fst (reverse_geocode latitude longitude e1 w)
        = fst (reverse_geocode latitude longitude e2 w)).
Proof.
  intros e1 e2 w data1 data2 first rest1 rest2 H1 H2 Hs1 Hs2 Hr1 Hr2.
  split.
  - intros address. unfold geocode_address.
    run_tool. rewrite H1. run_tool. rewrite H2. cbn [fst].
    rewrite (payload_passes _ _ _ _ _ Hs1 Hr1 eq_refl).
    rewrite (payload_passes _ _ _ _ _ Hs2 Hr2 eq_refl).
    replace (item (PDict data1) "results") with (Ok (PList (first :: rest1)))
      by (unfold item; now rewrite Hr1).
    replace (item (PDict data2) "results") with (Ok (PList (first :: rest2)))
      by (unfold item; now rewrite Hr2).
    reflexivity.
  - intros latitude longitude. unfold reverse_geocode.
    run_tool. rewrite H1. run_tool. rewrite H2. cbn [fst].
    rewrite (payload_passes _ _ _ _ _ Hs1 Hr1 eq_refl).
    rewrite (payload_passes _ _ _ _ _ Hs2 Hr2 eq_refl).
    replace (item (PDict data1) "results") with (Ok (PList (first :: rest1)))
      by (unfold item; now rewrite Hr1).
    replace (item (PDict data2) "results") with (Ok (PList (first :: rest2)))
      by (unfold item; now rewrite Hr2).
    reflexivity.
Qed.

Lemma geocoders_read_first_result_witness :
  fst (geocode_address "x" (answering "K" (JsonBody (PDict (two_results PNone))))
         initial_world)
  = fst (geocode_address "x" (answering "K" (JsonBody (PDict (two_results (PInt 7)))))
           initial_world).
Proof.
  exact (proj1 (geocoders_read_first_result
                  (answering "K" (JsonBody (PDict (two_results PNone))))
                  (answering "K" (JsonBody (PDict (two_results (PInt 7)))))
                  initial_world (two_results PNone) (two_results (PInt 7))
                  (PDict scenario_result) [PNone] [PInt 7]
                  (fun _ => eq_refl) (fun _ => eq_refl)
                  eq_refl eq_refl eq_refl eq_refl) "x").
Defined.

(** X9. A report of reverse_geocode ends with the coordinates the
    caller gave, as Python writes the two floats: the location of the
    result is not read.  What reverse_geocode returns is its fixed
    message or the three lines of the report. *)
Theorem reverse_geocode_echoes_arguments :
  forall (latitude longitude : float) (e : env) (w : world) (out : string),
    fst (reverse_geocode latitude longitude e w) = Ok out ->
    out = "Unable to reverse geocode the provided coordinates."
    \/ exists formatted_address place_id : pyval,
         out = nl ++ "Formatted Address: " ++ str formatted_address ++ nl
               ++ "Place ID: " ++ str place_id ++ nl
               ++ "Coordinates: " ++ PyFloat.repr latitude ++ ", "
               ++ PyFloat.repr longitude ++ nl.
Proof.
  intros latitude longitude e w out. unfold reverse_geocode. run_tool. cbn [fst].
  unfold unless_absent.
  destruct (gateway_payload _) as [data |]; [| intros [= <-]; now left].
  destruct (not_ (PDict data) || not_ (get data "results"));
    [intros [= <-]; now left|].
  intros H. bind_inv H as results Hresults. bind_inv H as first Hfirst.
  bind_inv H as formatted_address Haddress. bind_inv H as place_id Hid.
  right. exists formatted_address, place_id. congruence.
Qed.

Lemma reverse_geocode_echoes_arguments_witness :
  exists out,
    fst (reverse_geocode 1.5 2 (answering "K" (JsonBody (PDict scenario_payload)))
           initial_world) = Ok out
    /\ (out = "Unable to reverse geocode the provided coordinates."
        \/ exists formatted_address place_id : pyval,
             out = nl ++ "Formatted Address: " ++ str formatted_address ++ nl
                   ++ "Place ID: " ++ str place_id ++ nl
                   ++ "Coordinates: " ++ PyFloat.repr 1.5 ++ ", "
                   ++ PyFloat.repr 2 ++ nl).
Proof.
  eexists. split; [vm_compute; reflexivity|].
  apply (reverse_geocode_echoes_arguments 1.5 2
           (answering "K" (JsonBody (PDict scenario_payload))) initial_world).
  vm_compute. reflexivity.
Defined.

Lemma get_attr_or_ok (v : pyval) (k : string) (default x : pyval) :
  get_attr_or v k default = Ok x -> exists d, v = PDict d /\ x = get_or d k default.
Proof.
  destruct v; cbn; try discriminate. intros [= <-].
  eexists. split; reflexivity.
Qed.

Lemma item_ok (v : pyval) (k : string) (x : pyval) :
  item v k = Ok x -> exists d, v = PDict d /\ lookup d k = Some x.
Proof.
  destruct v; cbn; try discriminate.
  destruct (lookup d k) as [y |] eqn:Hy; [| discriminate]. intros [= <-].
  exists d. now split.
Qed.

(** X10. For a payload of status "OK" with a non-empty list of places,
    a search_places call that returns has written one block for each of
    the first 5 places, in order, with a line of dashes between two
    blocks, and nothing for the places after the fifth.  A place without
    an address, a rating or types has the placeholder of each in its
    block. *)
Theorem search_places_blocks :
  forall (query : string) (location : option string) (radius : option Z)
         (e : env) (w : world) (data : pydict) (places : list pyval) (out : string),
    http_get e (gateway_request (GOOGLE_MAPS_API_KEY e) "place/textsearch/json"
                  (search_params query location radius)) = JsonBody (PDict data) ->
    lookup data "status" = Some (PStr "OK") ->
    lookup data "results" = Some (PList places) ->
    places <> [] ->
    fst (search_places query location radius e w) = Ok out ->
    exists blocks,
      out = Str.join (nl ++ "---" ++ nl) blocks
      /\ List.length blocks = Nat.min 5 (List.length places)
      /\ forall i place block,
           nth_error places i = Some place -> nth_error blocks i = Some block ->
           place_block place block.
Proof.
  intros query location radius e w data places out Hget Hstatus Hresults Hne.
  assert (Htruthy : truthy (PList places) = true)
    by (destruct places; [contradiction | reflexivity]).
  unfold search_places.
  match goal with
  | |- context [evaluate (unless_absent _ _ _ ?r)] =>
      destruct (search_places_run query location radius
                  (fun data => unless_absent data "results"
                                 "No places found for the search query." r) e w)
        as (w' & -> & _ & _)
  end.
  cbn [fst]. rewrite Hget.
  rewrite (payload_passes _ _ _ _ _ Hstatus Hresults Htruthy).
  unfold item at 1. rewrite Hresults. cbn [bind slice_to iterate].
  intros H. bind_inv H as blocks Hblocks. injection H as <-.
  apply for_each_ok, Forall2_nth in Hblocks. destruct Hblocks as (Hlen & Hnth).
  rewrite length_firstn in Hlen.
  exists blocks. split; [reflexivity|]. split; [assumption|].
  intros i place block Hplace Hblock.
  assert (Hi : (i < 5)%nat).
  { assert (i < List.length blocks)%nat by (apply nth_error_Some; congruence). lia. }
  specialize (Hnth i place block).
  rewrite nth_error_firstn_lt in Hnth by assumption.
  specialize (Hnth Hplace Hblock). cbn beta in Hnth.
  bind_inv Hnth as name Hname. bind_inv Hnth as address Haddress.
  bind_inv Hnth as rating Hrating. bind_inv Hnth as types0 Htypes0.
  bind_inv Hnth as types Htypes. bind_inv Hnth as place_id Hid.
  injection Hnth as <-.
  apply item_ok in Hname. destruct Hname as (d & -> & Hname).
  cbn in Haddress, Hrating, Htypes0, Hid.
  injection Haddress as <-. injection Hrating as <-. injection Htypes0 as <-.
  destruct (lookup d "place_id") as [pid |] eqn:Hpid; [| discriminate Hid].
  injection Hid as <-.
  exists d, name, types, pid. repeat split; assumption.
Qed.

Lemma search_places_blocks_witness :
  exists out,
    fst (search_places "pizza" None None
           (answering "K" (JsonBody (PDict places_payload))) initial_world) = Ok out
    /\ exists blocks,
      out = Str.join (nl ++ "---" ++ nl) blocks
      /\ List.length blocks = Nat.min 5 (List.length six_places)
      /\ forall i place block,
           nth_error six_places i = Some place -> nth_error blocks i = Some block ->
           place_block place block.
Proof.
  eexists. split; [vm_compute; reflexivity|].
  apply (search_places_blocks "pizza" None None
           (answering "K" (JsonBody (PDict places_payload))) initial_world
           places_payload six_places).
  - reflexivity.
  - reflexivity.
  - reflexivity.
  - discriminate.
  - vm_compute. reflexivity.
Defined.

(** ** What a call leaves behind *)

Lemma gateway_log_short (o : http_outcome) : (List.length (gateway_log o) <= 1)%nat.
Proof.
  destruct o as [x | x | x | data]; cbn; try lia.
  destruct data; cbn; try lia.
  destruct (eq_str (get d "status") "OK"); cbn; lia.
Qed.

(** X11. A tool keeps nothing from one call to the next: what it
    returns, and the lines it adds to the output (one at most), are the
    same whatever was allocated, printed and sent before the call. *)
Theorem invoke_is_stateless :
  forall (c : call) (e : env) (w1 w2 : world),
    fst (invoke c e w1) = fst (invoke c e w2)
    /\ exists lines,
         stdout (snd (invoke c e w1)) = (stdout w1 ++ lines)%list
         /\ stdout (snd (invoke c e w2)) = (stdout w2 ++ lines)%list
         /\ (List.length lines <= 1)%nat.
Proof.
  intros c e w1 w2.
  destruct (invoke_shape c) as [[r Hr] | (d & endpoint & render & Hrun)].
  - rewrite !Hr. split; [reflexivity|]. exists []. cbn [snd].
    rewrite !app_nil_r. repeat split. cbn. lia.
  - destruct (Hrun e w1) as (w1' & -> & Hout1 & _).
    destruct (Hrun e w2) as (w2' & -> & Hout2 & _).
    split; [reflexivity|]. eexists. cbn [snd].
    split; [exact Hout1|]. split; [exact Hout2 | apply gateway_log_short].
Qed.

Lemma tool_frame (d : pydict) (endpoint : string) (body : option pydict -> result string)
    (e : env) (w : world) (r : nat) :
  (r < next_ref w)%nat ->
  heap (snd ((params <-- new_dict d ;;
              data <-- make_google_request endpoint params ;;
              evaluate (body data)) e w)) r = heap w r.
Proof.
  intros Hr. unfold mbind, new_dict, evaluate. cbv beta iota zeta.
  rewrite make_google_request_run. cbn [snd heap next_ref].
  assert (Hne : (r =? next_ref w)%nat = false) by (apply Nat.eqb_neq; lia).
  now rewrite !Hne.
Qed.

Lemma search_places_frame (query : string) (location : option string) (radius : option Z)
    (body : option pydict -> result string) (e : env) (w : world) (r : nat) :
  (r < next_ref w)%nat ->
  heap (snd ((params <-- new_dict [("query", PStr query)] ;;
              _ <-- match location with
                    | Some l => if negb (l =? "")
                                then setitem params "location" (PStr l) else ret tt
                    | None => ret tt
                    end ;;
              _ <-- match radius with
                    | Some r => if negb (r =? 0)%Z
                                then setitem params "radius" (PStr (Str.of_Z r)) else ret tt
                    | None => ret tt
                    end ;;
              data <-- make_google_request "place/textsearch/json" params ;;
              evaluate (body data)) e w)) r = heap w r.
Proof.
  intros Hr.
  assert (Hne : (r =? next_ref w)%nat = false) by (apply Nat.eqb_neq; lia).
  destruct location as [l |]; [destruct (negb (l =? "")) |];
    (destruct radius as [z |]; [destruct (negb (z =? 0)%Z) |]);
    unfold mbind, new_dict, setitem, ret, evaluate; cbv beta iota zeta;
    rewrite make_google_request_run; cbn [snd heap next_ref];
    now rewrite !Hne.
Qed.

(** X12. A tool call writes to the parameter mapping it makes itself
    and to no other: every mapping that was there before the call is
    after it what it was. *)
Theorem invoke_keeps_other_mappings :
  forall (c : call) (e : env) (w : world) (r : nat),
    (r < next_ref w)%nat ->
    heap (snd (invoke c e w)) r = heap w r.
Proof.
  intros [address | latitude longitude | query location radius | place_id
         | origin destination mode | origins destinations mode | locations] e w r Hr;
    cbn [invoke].
  - unfold geocode_address. now apply tool_frame.
  - unfold reverse_geocode. now apply tool_frame.
  - unfold search_places.
    now apply (search_places_frame query location radius
                 (fun data => unless_absent data "results" _ _)).
  - unfold get_place_details. now apply tool_frame.
  - unfold get_directions. destruct (negb (mode_in mode travel_modes));
      [reflexivity | now apply tool_frame].
  - unfold calculate_distance_matrix. destruct (negb (mode_in mode travel_modes));
      [reflexivity | now apply tool_frame].
  - unfold get_elevation.
    destruct (for_each _ locations) as [location_strings | x]; [| reflexivity].
    rewrite mbind_evaluate_ok. now apply tool_frame.
Qed.

Lemma invoke_keeps_other_mappings_witness :
  heap (snd (invoke (GeocodeAddress "x") (answering "K" (BadStatus "503")) keyed_world)) 0
  = heap keyed_world 0.
Proof.
  apply (invoke_keeps_other_mappings (GeocodeAddress "x")
           (answering "K" (BadStatus "503")) keyed_world 0).
  cbn. lia.
Defined.

(** X13. A tool that raises has printed nothing: the gateway prints
    only when it returns the absent result, and a tool that is handed the
    absent result returns its fixed message.  So a payload the tool
    cannot render leaves no line in the output. *)
Theorem raising_tool_prints_nothing :
  forall (c : call) (e : env) (w : world) (x : exn),
    fst (invoke c e w) = Raise x ->
    stdout (snd (invoke c e w)) = stdout w.
Proof.
  intros c e w x.
  destruct (invoke_shape c) as [[r Hr] | (d & endpoint & render & Hrun)].
  - now rewrite Hr.
  - destruct (Hrun e w) as (w' & -> & Hout & _). cbn [fst snd]. rewrite Hout.
    destruct (gateway_payload _) as [data |] eqn:Hpayload; [| discriminate].
    intros _. destruct (payload_quiet _ _ Hpayload) as (_ & ->). apply app_nil_r.
Qed.

Lemma raising_tool_prints_nothing_witness :
  fst (invoke (GeocodeAddress "1 Main St")
         (answering "K" (JsonBody (PDict bare_result))) initial_world) = Raise KeyError
  /\ stdout (snd (invoke (GeocodeAddress "1 Main St")
                    (answering "K" (JsonBody (PDict bare_result))) initial_world))
     = stdout initial_world.
Proof.
  split; [vm_compute; reflexivity|].
  apply (raising_tool_prints_nothing (GeocodeAddress "1 Main St")
           (answering "K" (JsonBody (PDict bare_result))) initial_world KeyError).
  vm_compute. reflexivity.
Defined.

(** ** Place details *)

Lemma all_str_strings (l : list string) : all_str (map PStr l) = Ok l.
Proof. induction l as [| s l IH]; cbn; [reflexivity | now rewrite IH]. Qed.

Lemma take_all (n : nat) (s : string) : (String.length s <= n)%nat -> Str.take n s = s.
Proof.
  revert s. induction n as [| n IH]; intros s Hn.
  - destruct s; [reflexivity | cbn in Hn; lia].
  - destruct s as [| c s]; [reflexivity|]. cbn in *. rewrite IH; [reflexivity | lia].
Qed.

(** X14. For a place with opening hours and without reviews,
    get_place_details writes the first lines, then "Opening Hours:" and
    the texts of the days, one to a line, when there are any, then
    "Currently Open:" with Yes when open_now is true and with No when it
    is false or missing. *)
Theorem get_place_details_opening_hours :
  forall (place_id : string) (e : env) (w : world)
         (data place hours : pydict) (days : list string),
    http_get e (gateway_request (GOOGLE_MAPS_API_KEY e) "place/details/json"
                  (details_params place_id)) = JsonBody (PDict data) ->
    lookup data "status" = Some (PStr "OK") ->
    lookup data "result" = Some (PDict place) ->
    lookup place "opening_hours" = Some (PDict hours) ->
    hours <> [] ->
    lookup hours "weekday_text" = Some (PList (map PStr days)) ->
    lookup place "reviews" = None ->
    fst (get_place_details place_id e w)
    = Ok (details_head place
          ++ match days with
             | [] => ""
             | _ => nl ++ "Opening Hours:" ++ nl ++ Str.join nl days
             end
          ++ nl ++ "Currently Open: "
          ++ (if truthy (get hours "open_now") then "Yes" else "No")).
Proof.
  intros place_id e w data place hours days Hget Hstatus Hresult Hhours Hne Hdays Hreviews.
  assert (Hplace : truthy (PDict place) = true)
    by exact (lookup_nonempty _ _ _ Hhours).
  assert (Htruthy : truthy (PDict hours) = true)
    by (destruct hours; [contradiction | reflexivity]).
  unfold get_place_details. run_tool. fold (details_params place_id).
  rewrite Hget. cbn [fst].
  rewrite (payload_passes _ _ _ _ _ Hstatus Hresult Hplace).
  unfold item at 1. rewrite Hresult.
  cbn [bind get_attr_or get_attr]. fold (details_head place).
  unfold get_or at 1. rewrite Hhours, Htruthy.
  unfold item at 1. rewrite Hhours. cbn [bind get_attr get_attr_or].
  unfold get_or at 1. rewrite Hdays.
  unfold get_or at 2. rewrite Hreviews. cbn [truthy bind].
  destruct days as [| day days].
  - cbn [map truthy bind]. reflexivity.
  - cbn [map truthy]. unfold item at 1. rewrite Hdays. cbn [bind].
    unfold join. cbn [iterate bind].
    change (PStr day :: map PStr days) with (map PStr (day :: days)).
    rewrite all_str_strings. cbn [bind]. f_equal.
    now rewrite !append_assoc.
Qed.

Lemma get_place_details_opening_hours_witness :
  fst (get_place_details "pid" (answering "K" (JsonBody (PDict open_details)))
         initial_world)
  = Ok (details_head open_place
        ++ (nl ++ "Opening Hours:" ++ nl ++ Str.join nl ["Mon: 9-5"; "Tue: 9-5"])
        ++ nl ++ "Currently Open: No").
Proof.
  apply (get_place_details_opening_hours "pid"
           (answering "K" (JsonBody (PDict open_details))) initial_world
           open_details open_place
           [("weekday_text", PList (map PStr ["Mon: 9-5"; "Tue: 9-5"]))]
           ["Mon: 9-5"; "Tue: 9-5"]);
    reflexivity || discriminate.
Defined.

(** X15. The three dots are written after every review text, also
    after one that is not cut: the entry of a review whose text is a
    string of 200 characters or fewer shows the whole text, followed by
    "...". *)
Theorem get_place_details_short_review :
  forall (place_id : string) (e : env) (w : world)
         (data place : pydict) (reviews : list pyval) (out : string),
    http_get e (gateway_request (GOOGLE_MAPS_API_KEY e) "place/details/json"
                  (details_params place_id)) = JsonBody (PDict data) ->
    lookup data "status" = Some (PStr "OK") ->
    lookup data "result" = Some (PDict place) ->
    lookup place "reviews" = Some (PList reviews) ->
    reviews <> [] ->
    fst (get_place_details place_id e w) = Ok out ->
    exists base lines,
      out = base ++ nl ++ nl ++ "Recent Reviews:" ++ Str.cat lines
      /\ List.length lines = Nat.min 3 (List.length reviews)
      /\ forall i review line author_name rating text,
           nth_error reviews i = Some review -> nth_error lines i = Some line ->
           item review "author_name" = Ok author_name ->
           item review "rating" = Ok rating ->
           item review "text" = Ok (PStr text) ->
           (String.length text <= 200)%nat ->
           line = nl ++ "- " ++ str author_name ++ " (" ++ str rating ++ " stars): "
                  ++ text ++ "..." ++ nl.
Proof.
  intros place_id e w data place reviews out Hget Hstatus Hresult Hreviews Hne Hret.
  assert (Hplace : truthy (PDict place) = true)
    by exact (lookup_nonempty _ _ _ Hreviews).
  assert (Htruthy : truthy (PList reviews) = true)
    by (destruct reviews; [contradiction | reflexivity]).
  unfold get_place_details in Hret. revert Hret. run_tool.
  fold (details_params place_id). rewrite Hget. cbn [fst].
  rewrite (payload_passes _ _ _ _ _ Hstatus Hresult Hplace).
  unfold item at 1. rewrite Hresult. cbn [bind get_attr_or get_attr].
  match goal with
  | |- bind ?hours _ = _ -> _ => destruct hours as [base | x]; [|discriminate]
  end.
  cbn [bind]. unfold get_or. rewrite Hreviews, Htruthy.
  unfold item at 1. rewrite Hreviews. cbn [bind slice_to iterate].
  rewrite (for_loop_appends
             (fun review =>
                author_name <- item review "author_name" ;;
                rating <- item review "rating" ;;
                text <- item review "text" ;;
                text <- slice_to text 200 ;;
                Ok (nl ++ "- " ++ str author_name
                    ++ " (" ++ str rating ++ " stars): " ++ str text ++ "..." ++ nl)))
    by (intros s review; appends).
  intros Hret. bind_inv Hret as lines Hlines. injection Hret as <-.
  apply for_each_ok, Forall2_nth in Hlines. destruct Hlines as (Hlen & Hnth).
  rewrite length_firstn in Hlen.
  exists base, lines.
  split; [now rewrite !append_assoc|]. split; [assumption|].
  intros i review line author_name rating text Hreview Hline Hauthor Hrating Htext Hshort.
  assert (Hi : (i < 3)%nat).
  { assert (i < List.length lines)%nat by (apply nth_error_Some; congruence). lia. }
  specialize (Hnth i review line).
  rewrite nth_error_firstn_lt in Hnth by assumption.
  specialize (Hnth Hreview Hline). cbn beta in Hnth.
  rewrite Hauthor, Hrating, Htext in Hnth. cbn [bind slice_to str] in Hnth.
  rewrite (take_all 200 text Hshort) in Hnth. now injection Hnth as <-.
Qed.

Lemma get_place_details_short_review_witness :
  exists out,
    fst (get_place_details "pid"
           (answering "K" (JsonBody (PDict sample_details))) initial_world) = Ok out
    /\ exists base lines,
      out = base ++ nl ++ nl ++ "Recent Reviews:" ++ Str.cat lines
      /\ List.length lines = Nat.min 3 (List.length sample_reviews)
      /\ forall i review line author_name rating text,
           nth_error sample_reviews i = Some review -> nth_error lines i = Some line ->
           item review "author_name" = Ok author_name ->
           item review "rating" = Ok rating ->
           item review "text" = Ok (PStr text) ->
           (String.length text <= 200)%nat ->
           line = nl ++ "- " ++ str author_name ++ " (" ++ str rating ++ " stars): "
                  ++ text ++ "..." ++ nl.
Proof.
  eexists. split; [vm_compute; reflexivity|].
  apply (get_place_details_short_review "pid"
           (answering "K" (JsonBody (PDict sample_details))) initial_world
           sample_details sample_place sample_reviews).
  - reflexivity.
  - reflexivity.
  - reflexivity.
  - reflexivity.
  - discriminate.
  - vm_compute. reflexivity.
Defined.
